(** * TopStepX client: session manager, request protocol, domain operations

    A shallow embedding of [topstepx/auth.py], [topstepx/client.py],
    [topstepx/exceptions.py] and [topstepx/models.py].

    - Values decoded from JSON bodies are Python objects ([pyval]); the code
      never validates them, so they are kept untyped.  Arguments supplied by
      the caller follow the annotations of the Python signatures.
    - Each coroutine is a computation in a state-and-exception monad over a
      [world]: the [TopStepXAuth] object, the wall clock, the replies the
      remote service is going to give, and the requests sent so far.
    - A naive [datetime] used for arithmetic is its number of microseconds
      since [datetime.min]; [timedelta] is a number of microseconds.  The
      year 1 .. 9999 range of the Python type is not represented. *)

From Stdlib Require Import ZArith List String Ascii Bool Lia SpecFloat DecimalString.
Import ListNotations.
Open Scope string_scope.
Open Scope Z_scope.

(** ** Python values *)

Module Py.

#[local] Set Warnings "-register-all".

(** An object produced by [response.json()], or placed in a request body. *)
Inductive pyval : Type :=
| PNone
| PBool (b : bool)
| PInt (z : Z)
| PFloat (f : spec_float)
| PStr (s : string)
| PList (l : list pyval)
| PDict (d : list (string * pyval)).

(** A [dict] with string keys, in insertion order. *)
Definition dict : Type := list (string * pyval).

(** [d.get(k)] on the association list: the entry for [k], if any. *)
Fixpoint lookup (k : string) (d : dict) : option pyval :=
  match d with
  | [] => None
  | (k', v) :: d' => if String.eqb k k' then Some v else lookup k d'
  end.

(** [d[k] = v]: replaces the value in place, or appends a new entry. *)
Fixpoint store (k : string) (v : pyval) (d : dict) : dict :=
  match d with
  | [] => [(k, v)]
  | (k', v') :: d' =>
      if String.eqb k k' then (k', v) :: d' else (k', v') :: store k v d'
  end.

(** [k in d]. *)
Definition has_key (k : string) (d : dict) : bool :=
  match lookup k d with Some _ => true | None => false end.

(** [bool(v)]: the truth value Python's [if], [not], [and] and [or] use. *)
Definition truthy (v : pyval) : bool :=
  match v with
  | PNone => false
  | PBool b => b
  | PInt z => negb (z =? 0)
  | PFloat (S754_zero _) => false
  | PFloat _ => true
  | PStr s => negb (String.eqb s "")
  | PList l => match l with [] => false | _ => true end
  | PDict d => match d with [] => false | _ => true end
  end.

(** Exact comparison of a float with an integer, as [float.__eq__] does. *)
Definition float_eq_int (f : spec_float) (n : Z) : bool :=
  match f with
  | S754_zero _ => n =? 0
  | S754_finite s m e =>
      let v := if s then Z.neg m else Z.pos m in
      if 0 <=? e then v * 2 ^ e =? n else v =? n * 2 ^ (- e)
  | S754_infinity _ | S754_nan => false
  end.

(** [v == n] for an integer literal [n]: [bool] is a subclass of [int],
    floats compare by value, every other type is unequal to a number. *)
Definition eq_int (v : pyval) (n : Z) : bool :=
  match v with
  | PBool b => (if b then 1 else 0) =? n
  | PInt z => z =? n
  | PFloat f => float_eq_int f n
  | PNone | PStr _ | PList _ | PDict _ => false
  end.

(** [v == True]. *)
Definition eq_True (v : pyval) : bool := eq_int v 1.

(** [str(n)] for an [int]. *)
Definition str_int (z : Z) : string := NilZero.string_of_int (Z.to_int z).

(** What the interpreter supplies and the repository does not contain:
    [float.__repr__] (shortest round-trip decimal) and [str.__repr__]
    (quoting and escaping). *)
Class Runtime : Type := {
  float_repr : spec_float -> string;
  str_repr : string -> string
}.

Section Formatting.
Context {rt : Runtime}.

Definition join (sep : string) (parts : list string) : string :=
  String.concat sep parts.

(** [repr(v)]. *)
Fixpoint repr (v : pyval) : string :=
  match v with
  | PNone => "None"
  | PBool true => "True"
  | PBool false => "False"
  | PInt z => str_int z
  | PFloat f => float_repr f
  | PStr s => str_repr s
  | PList l => "[" ++ join ", " (map repr l) ++ "]"
  | PDict d =>
      "{" ++ join ", " (map (fun kv => str_repr (fst kv) ++ ": " ++ repr (snd kv)) d) ++ "}"
  end.

(** [str(v)], which is what [f"{v}"] inserts: a string is itself, every
    other object is its [repr]. *)
Definition str (v : pyval) : string :=
  match v with
  | PStr s => s
  | _ => repr v
  end.

End Formatting.

End Py.

Import Py.

(** ** The environment of a call: exceptions, transport, session object *)

Module Env.

(** Naive [datetime] and [timedelta] values, in microseconds. *)
Definition datetime : Type := Z.
Definition timedelta : Type := Z.

Definition timedelta_hours (h : Z) : timedelta := h * 3600 * 1000000.
Definition timedelta_minutes (m : Z) : timedelta := m * 60 * 1000000.

(** [exceptions.py]: the four concrete subclasses of [TopStepXError], each
    carrying [message] and [error_code]; and the exceptions that [httpx] and
    the interpreter raise, which no method of the package catches. *)
Inductive exn : Type :=
| AuthenticationError (message error_code : pyval)
| APIError (message error_code : pyval)
| OrderError (message error_code : pyval)
| PositionError (message error_code : pyval)
| TransportError
| HTTPStatusError (status : Z)
| JSONDecodeError
| KeyError (key : string)
| TypeError
| AttributeError (attr : string).

(** One [client.post(url, json=..., headers=...)]. *)
Record request : Type := {
  url : string;
  json : option pyval;
  headers : option dict
}.

(** An [httpx.Response]: its status code and what [.json()] decodes the body
    to ([None] when the body is not JSON). *)
Record response : Type := {
  status_code : Z;
  body : option pyval
}.

(** What the remote side does with one request: after [elapsed] microseconds
    either a response arrives or the transport gives up ([answer = None]). *)
Record exchange : Type := {
  elapsed : Z;
  answer : option response
}.

(** The [TopStepXAuth] instance ([__init__], auth.py lines 25-28).  [token]
    is whatever the login body carried, [PNone] before the first login. *)
Record auth_obj : Type := {
  username : string;
  api_key : string;
  token : pyval;
  token_expires : option datetime
}.

Record world : Type := {
  auth : auth_obj;
  now : datetime;
  inbox : list exchange;
  outbox : list request
}.

(** How a coroutine ends: with a value, or with an exception; either way in
    a world. *)
Inductive outcome (A : Type) : Type :=
| Ok (a : A) (w : world)
| Raise (e : exn) (w : world).
Arguments Ok {A} a w.
Arguments Raise {A} e w.

Definition final {A : Type} (o : outcome A) : world :=
  match o with Ok _ w => w | Raise _ w => w end.

Definition M (A : Type) : Type := world -> outcome A.

Definition ret {A : Type} (a : A) : M A := fun w => Ok a w.

Definition raise {A : Type} (e : exn) : M A := fun w => Raise e w.

Definition bind {A B : Type} (c : M A) (k : A -> M B) : M B :=
  fun w => match c w with
           | Ok a w' => k a w'
           | Raise e w' => Raise e w'
           end.

Declare Scope py_scope.
Delimit Scope py_scope with py.
Notation "x <- c ;; k" := (bind c (fun x => k))
  (at level 61, c at next level, right associativity) : py_scope.
Notation "c ;; k" := (bind c (fun _ => k))
  (at level 61, right associativity) : py_scope.
Open Scope py_scope.

(** [self]: the auth object of the world. *)
Definition self : M auth_obj := fun w => Ok (auth w) w.

(** [datetime.now()]. *)
Definition datetime_now : M datetime := fun w => Ok (now w) w.

Definition set_token (v : pyval) : M unit :=
  fun w =>
    Ok tt {| auth := {| username := username (auth w);
                        api_key := api_key (auth w);
                        token := v;
                        token_expires := token_expires (auth w) |};
             now := now w; inbox := inbox w; outbox := outbox w |}.

Definition set_token_expires (t : option datetime) : M unit :=
  fun w =>
    Ok tt {| auth := {| username := username (auth w);
                        api_key := api_key (auth w);
                        token := token (auth w);
                        token_expires := t |};
             now := now w; inbox := inbox w; outbox := outbox w |}.

(** The world once [rq] has been sent and the exchange [x] has ended. *)
Definition exchanged (rq : request) (x : exchange) (rest : list exchange)
    (w : world) : world :=
  {| auth := auth w;
     now := now w + elapsed x;
     inbox := rest;
     outbox := outbox w ++ [rq] |}.

(** [await client.post(...)] inside [async with httpx.AsyncClient()]: the
    request goes out and the next exchange of the world decides what comes
    back.  With nothing left to answer, the transport fails at once. *)
Definition post (rq : request) : M response :=
  fun w =>
    match inbox w with
    | [] => Raise TransportError
              {| auth := auth w; now := now w; inbox := [];
                 outbox := outbox w ++ [rq] |}
    | x :: rest =>
        match answer x with
        | Some r => Ok r (exchanged rq x rest w)
        | None => Raise TransportError (exchanged rq x rest w)
        end
    end.

(** [httpx.Response.is_success]. *)
Definition is_success (r : response) : bool :=
  (200 <=? status_code r) && (status_code r <=? 299).

(** [response.raise_for_status()]. *)
Definition raise_for_status (r : response) : M unit :=
  if is_success r then ret tt else raise (HTTPStatusError (status_code r)).

(** [response.json()]. *)
Definition response_json (r : response) : M pyval :=
  match body r with
  | Some v => ret v
  | None => raise JSONDecodeError
  end.

(** [data.get(k, default)]; an object that is not a [dict] has no [get]. *)
Definition get (data : pyval) (k : string) (default : pyval) : M pyval :=
  match data with
  | PDict d => ret (match lookup k d with Some v => v | None => default end)
  | _ => raise (AttributeError "get")
  end.

(** [data[k]] with a string key: a [dict] without the key raises
    [KeyError], any other object cannot be subscripted by a string. *)
Definition subscript (data : pyval) (k : string) : M pyval :=
  match data with
  | PDict d => match lookup k d with
               | Some v => ret v
               | None => raise (KeyError k)
               end
  | _ => raise TypeError
  end.

(** The test every method applies to the decoded body,
    [data.get("success") and data.get("errorCode") == 0], with the
    short-circuit of [and]. *)
Definition envelope_succeeded (data : pyval) : M bool :=
  success <- get data "success" PNone ;;
  if truthy success
  then (error_code <- get data "errorCode" PNone ;; ret (eq_int error_code 0))
  else ret false.

End Env.

Import Env.

(** ** [auth.py]: class [TopStepXAuth] *)

Module TopStepXAuth.

Definition BASE_URL : string := "https://api.topstepx.com".
Definition TOKEN_VALIDITY_HOURS : Z := 24.
Definition TOKEN_REFRESH_MARGIN_MINUTES : Z := 5.

(** [__init__]: credentials stored, no token, no expiry. *)
Definition init (username api_key : string) : auth_obj :=
  {| username := username;
     api_key := api_key;
     token := PNone;
     token_expires := None |}.

(** [_is_token_expired] (lines 99-109).  A [datetime] is always true, so
    [not self.token_expires] holds exactly for [None]. *)
Definition _is_token_expired : M bool :=
  a <- self ;;
  match token_expires a with
  | None => ret true
  | Some expires =>
      let margin := timedelta_minutes TOKEN_REFRESH_MARGIN_MINUTES in
      t <- datetime_now ;;
      ret (expires - margin <=? t)
  end.

(** The body sent to [/api/Auth/loginKey] (lines 63-66). *)
Definition login_request (a : auth_obj) : request :=
  {| url := BASE_URL ++ "/api/Auth/loginKey";
     json := Some (PDict [("userName", PStr (username a));
                          ("apiKey", PStr (api_key a))]);
     headers := None |}.

(** [_login] (lines 53-80). *)
Definition _login : M unit :=
  a <- self ;;
  response <- post (login_request a) ;;
  raise_for_status response ;;
  data <- response_json response ;;
  ok <- envelope_succeeded data ;;
  if ok then
    tok <- subscript data "token" ;;
    set_token tok ;;
    t <- datetime_now ;;
    set_token_expires (Some (t + timedelta_hours TOKEN_VALIDITY_HOURS))
  else
    message <- get data "errorMessage" (PStr "Unknown error") ;;
    error_code <- get data "errorCode" PNone ;;
    raise (AuthenticationError message error_code).

(** [get_valid_token] (lines 30-42); [or] evaluates [_is_token_expired]
    only when the token is true. *)
Definition get_valid_token : M pyval :=
  a <- self ;;
  stale <- (if negb (truthy (token a)) then ret true else _is_token_expired) ;;
  (if stale then _login else ret tt) ;;
  a' <- self ;;
  ret (token a').

Section WithRuntime.
Context {rt : Runtime}.

(** [get_headers] (lines 44-51). *)
Definition get_headers : M dict :=
  a <- self ;;
  ret [("Authorization", PStr ("Bearer " ++ str (token a)))].

(** [validate_token] (lines 82-97). *)
Definition validate_token : M bool :=
  a <- self ;;
  if negb (truthy (token a)) then ret false
  else
    h <- get_headers ;;
    response <- post {| url := BASE_URL ++ "/api/Auth/validate";
                        json := None;
                        headers := Some h |} ;;
    ret (status_code response =? 200).

End WithRuntime.

End TopStepXAuth.

(** ** [models.py]: the integer codes of the wire contract *)

Module Models.

Inductive OrderType : Type :=
| LIMIT | MARKET | STOP | TRAILING_STOP | JOIN_BID | JOIN_ASK.

Inductive OrderSide : Type := BUY | SELL.

Inductive OrderStatus : Type := PENDING | FILLED | CANCELLED | REJECTED.

Inductive PositionType : Type := LONG | SHORT.

(** [int(order_type)]. *)
Definition OrderType_int (t : OrderType) : Z :=
  match t with
  | LIMIT => 1 | MARKET => 2 | STOP => 4
  | TRAILING_STOP => 5 | JOIN_BID => 6 | JOIN_ASK => 7
  end.

(** [int(side)]. *)
Definition OrderSide_int (s : OrderSide) : Z :=
  match s with BUY => 0 | SELL => 1 end.

Definition OrderStatus_int (s : OrderStatus) : Z :=
  match s with PENDING => 1 | FILLED => 2 | CANCELLED => 3 | REJECTED => 4 end.

Definition PositionType_int (p : PositionType) : Z :=
  match p with LONG => 0 | SHORT => 1 end.

End Models.

(** ** [datetime.isoformat] on the timestamps a caller passes *)

Module Datetime.

(** A naive [datetime] object as it is stored: its calendar fields. *)
Record t : Type := {
  year : Z; month : Z; day : Z;
  hour : Z; minute : Z; second : Z; microsecond : Z
}.

(** The ranges the [datetime] constructor enforces (the day is also bounded
    by the length of its month, which formatting does not depend on). *)
Definition valid (d : t) : Prop :=
  1 <= year d <= 9999 /\ 1 <= month d <= 12 /\ 1 <= day d <= 31 /\
  0 <= hour d <= 23 /\ 0 <= minute d <= 59 /\ 0 <= second d <= 59 /\
  0 <= microsecond d <= 999999.

Definition digit (n : Z) : ascii := ascii_of_nat (48 + Z.to_nat n).

(** The [w] low-order decimal digits of [z], most significant first. *)
Fixpoint fixed_digits (w : nat) (z : Z) : string :=
  match w with
  | O => ""
  | S w' => fixed_digits w' (z / 10) ++ String (digit (z mod 10)) ""
  end.

(** ["%0wd" % z]: at least [w] characters, zero-padded after the sign. *)
Definition fmt0d (w : nat) (z : Z) : string :=
  if z <? 0 then
    if - z <? 10 ^ Z.of_nat (Nat.pred w)
    then "-" ++ fixed_digits (Nat.pred w) (- z)
    else str_int z
  else
    if z <? 10 ^ Z.of_nat w then fixed_digits w z else str_int z.

(** [d.isoformat()] with the default separator and [timespec='auto']: the
    fraction is printed only when [microsecond] is not zero. *)
Definition isoformat (d : t) : string :=
  fmt0d 4 (year d) ++ "-" ++ fmt0d 2 (month d) ++ "-" ++ fmt0d 2 (day d)
  ++ "T"
  ++ fmt0d 2 (hour d) ++ ":" ++ fmt0d 2 (minute d) ++ ":" ++ fmt0d 2 (second d)
  ++ (if microsecond d =? 0 then "" else "." ++ fmt0d 6 (microsecond d)).

(** ISO 8601 extended format, as a recognizer:
    [YYYY-MM-DDThh:mm:ss] with an optional fraction of the second. *)
Definition is_digit (c : ascii) : bool :=
  (48 <=? nat_of_ascii c)%nat && (nat_of_ascii c <=? 57)%nat.

Fixpoint all_digits (s : string) : bool :=
  match s with
  | EmptyString => true
  | String c s' => is_digit c && all_digits s'
  end.

Definition is_fraction (s : string) : bool :=
  match s with
  | EmptyString => true
  | String "." (String c s') => is_digit c && all_digits s'
  | _ => false
  end.

Definition is_iso8601 (s : string) : bool :=
  match s with
  | String y1 (String y2 (String y3 (String y4 (String "-"
    (String m1 (String m2 (String "-"
    (String d1 (String d2 (String "T"
    (String h1 (String h2 (String ":"
    (String n1 (String n2 (String ":"
    (String s1 (String s2 rest)))))))))))))))))) =>
      forallb is_digit [y1; y2; y3; y4; m1; m2; d1; d2; h1; h2; n1; n2; s1; s2]
      && is_fraction rest
  | _ => false
  end.

End Datetime.

(** ** [client.py]: class [TopStepXClient] *)

Module TopStepXClient.

Import Models.

Definition BASE_URL : string := "https://api.topstepx.com".

(** An [Optional] argument as a value of the request body. *)
Definition optional {A : Type} (inj : A -> pyval) (o : option A) : pyval :=
  match o with
  | Some a => inj a
  | None => PNone
  end.

(** The payload of [search_orders] (lines 190-195) and of [search_trades]
    (lines 468-473); a [datetime] is always true, so [if end_timestamp:]
    holds exactly when one was given. *)
Definition search_payload (account_id : Z) (start_timestamp : Datetime.t)
    (end_timestamp : option Datetime.t) : dict :=
  let payload := [("accountId", PInt account_id);
                  ("startTimestamp", PStr (Datetime.isoformat start_timestamp))] in
  match end_timestamp with
  | Some e => store "endTimestamp" (PStr (Datetime.isoformat e)) payload
  | None => payload
  end.

(** The [order_data] of [place_order] (lines 138-149). *)
Definition order_data (account_id : Z) (contract_id : string)
    (order_type : OrderType) (side : OrderSide) (size : Z)
    (limit_price stop_price trail_price : option spec_float)
    (custom_tag : option string) (linked_order_id : option Z) : dict :=
  [("accountId", PInt account_id);
   ("contractId", PStr contract_id);
   ("type", PInt (OrderType_int order_type));
   ("side", PInt (OrderSide_int side));
   ("size", PInt size);
   ("limitPrice", optional PFloat limit_price);
   ("stopPrice", optional PFloat stop_price);
   ("trailPrice", optional PFloat trail_price);
   ("customTag", optional PStr custom_tag);
   ("linkedOrderId", optional PInt linked_order_id)].

(** The payload of [modify_order] (lines 307-314). *)
Definition modify_payload (account_id order_id : Z) (size : option Z)
    (limit_price stop_price trail_price : option spec_float) : dict :=
  [("accountId", PInt account_id);
   ("orderId", PInt order_id);
   ("size", optional PInt size);
   ("limitPrice", optional PFloat limit_price);
   ("stopPrice", optional PFloat stop_price);
   ("trailPrice", optional PFloat trail_price)].

Section WithRuntime.
Context {rt : Runtime}.

(** The block every method repeats after its payload is built: one POST
    with the authorization header, [raise_for_status], [json()], the test
    of the envelope, and either the method's [return] or its [raise]. *)
Definition exchange_json (path : string) (payload : dict)
    (error : pyval -> pyval -> exn) (result : pyval -> M pyval) : M pyval :=
  h <- TopStepXAuth.get_headers ;;
  response <- post {| url := BASE_URL ++ path;
                      json := Some (PDict payload);
                      headers := Some h |} ;;
  raise_for_status response ;;
  data <- response_json response ;;
  ok <- envelope_succeeded data ;;
  if ok then result data
  else
    message <- get data "errorMessage" (PStr "Unknown error") ;;
    error_code <- get data "errorCode" PNone ;;
    raise (error message error_code).

(** [return data.get(field, [])]. *)
Definition field_or_empty (field : string) (data : pyval) : M pyval :=
  get data field (PList []).

Definition get_active_accounts : M pyval :=
  TopStepXAuth.get_valid_token ;;
  exchange_json "/api/Account/search" [("onlyActiveAccounts", PBool true)]
    APIError (field_or_empty "accounts").

Definition get_available_contracts (live : bool) : M pyval :=
  TopStepXAuth.get_valid_token ;;
  exchange_json "/api/Contract/available" [("live", PBool live)]
    APIError (field_or_empty "contracts").

Definition place_order (account_id : Z) (contract_id : string)
    (order_type : OrderType) (side : OrderSide) (size : Z)
    (limit_price stop_price trail_price : option spec_float)
    (custom_tag : option string) (linked_order_id : option Z) : M pyval :=
  TopStepXAuth.get_valid_token ;;
  exchange_json "/api/Order/place"
    (order_data account_id contract_id order_type side size
       limit_price stop_price trail_price custom_tag linked_order_id)
    OrderError ret.

Definition search_orders (account_id : Z) (start_timestamp : Datetime.t)
    (end_timestamp : option Datetime.t) : M pyval :=
  TopStepXAuth.get_valid_token ;;
  exchange_json "/api/Order/search"
    (search_payload account_id start_timestamp end_timestamp)
    OrderError (field_or_empty "orders").

Definition get_open_orders (account_id : Z) : M pyval :=
  TopStepXAuth.get_valid_token ;;
  exchange_json "/api/Order/searchOpen" [("accountId", PInt account_id)]
    OrderError (field_or_empty "orders").

Definition cancel_order (account_id order_id : Z) : M pyval :=
  TopStepXAuth.get_valid_token ;;
  exchange_json "/api/Order/cancel"
    [("accountId", PInt account_id); ("orderId", PInt order_id)]
    OrderError ret.

Definition modify_order (account_id order_id : Z) (size : option Z)
    (limit_price stop_price trail_price : option spec_float) : M pyval :=
  TopStepXAuth.get_valid_token ;;
  exchange_json "/api/Order/modify"
    (modify_payload account_id order_id size limit_price stop_price trail_price)
    OrderError ret.

Definition get_open_positions (account_id : Z) : M pyval :=
  TopStepXAuth.get_valid_token ;;
  exchange_json "/api/Position/searchOpen" [("accountId", PInt account_id)]
    PositionError (field_or_empty "positions").

Definition close_position (account_id : Z) (contract_id : string) : M pyval :=
  TopStepXAuth.get_valid_token ;;
  exchange_json "/api/Position/closeContract"
    [("accountId", PInt account_id); ("contractId", PStr contract_id)]
    PositionError ret.

Definition partial_close_position (account_id : Z) (contract_id : string)
    (size : Z) : M pyval :=
  TopStepXAuth.get_valid_token ;;
  exchange_json "/api/Position/partialCloseContract"
    [("accountId", PInt account_id); ("contractId", PStr contract_id);
     ("size", PInt size)]
    PositionError ret.

Definition search_trades (account_id : Z) (start_timestamp : Datetime.t)
    (end_timestamp : option Datetime.t) : M pyval :=
  TopStepXAuth.get_valid_token ;;
  exchange_json "/api/Trade/search"
    (search_payload account_id start_timestamp end_timestamp)
    APIError (field_or_empty "trades").

End WithRuntime.

End TopStepXClient.

(** ** Vocabulary of the specification *)

Module Spec.

Import Models.

(** The eleven domain operations, with their arguments. *)
Inductive operation : Type :=
| GetActiveAccounts
| GetAvailableContracts (live : bool)
| PlaceOrder (account_id : Z) (contract_id : string)
    (order_type : OrderType) (side : OrderSide) (size : Z)
    (limit_price stop_price trail_price : option spec_float)
    (custom_tag : option string) (linked_order_id : option Z)
| SearchOrders (account_id : Z) (start_timestamp : Datetime.t)
    (end_timestamp : option Datetime.t)
| GetOpenOrders (account_id : Z)
| CancelOrder (account_id order_id : Z)
| ModifyOrder (account_id order_id : Z) (size : option Z)
    (limit_price stop_price trail_price : option spec_float)
| GetOpenPositions (account_id : Z)
| ClosePosition (account_id : Z) (contract_id : string)
| PartialClosePosition (account_id : Z) (contract_id : string) (size : Z)
| SearchTrades (account_id : Z) (start_timestamp : Datetime.t)
    (end_timestamp : option Datetime.t).

(** The endpoint of an operation (section 6 of the specification). *)
Definition path (op : operation) : string :=
  match op with
  | GetActiveAccounts => "/api/Account/search"
  | GetAvailableContracts _ => "/api/Contract/available"
  | PlaceOrder _ _ _ _ _ _ _ _ _ _ => "/api/Order/place"
  | SearchOrders _ _ _ => "/api/Order/search"
  | GetOpenOrders _ => "/api/Order/searchOpen"
  | CancelOrder _ _ => "/api/Order/cancel"
  | ModifyOrder _ _ _ _ _ _ => "/api/Order/modify"
  | GetOpenPositions _ => "/api/Position/searchOpen"
  | ClosePosition _ _ => "/api/Position/closeContract"
  | PartialClosePosition _ _ _ => "/api/Position/partialCloseContract"
  | SearchTrades _ _ _ => "/api/Trade/search"
  end.

(** The error kind of an operation (section 7). *)
Definition error_kind (op : operation) : pyval -> pyval -> exn :=
  match op with
  | GetActiveAccounts | GetAvailableContracts _ | SearchTrades _ _ _ => APIError
  | PlaceOrder _ _ _ _ _ _ _ _ _ _ | SearchOrders _ _ _ | GetOpenOrders _
  | CancelOrder _ _ | ModifyOrder _ _ _ _ _ _ => OrderError
  | GetOpenPositions _ | ClosePosition _ _ | PartialClosePosition _ _ _ =>
      PositionError
  end.

(** The field of the envelope an operation returns; [None] is the whole
    envelope. *)
Definition payload_field (op : operation) : option string :=
  match op with
  | GetActiveAccounts => Some "accounts"
  | GetAvailableContracts _ => Some "contracts"
  | SearchOrders _ _ _ | GetOpenOrders _ => Some "orders"
  | GetOpenPositions _ => Some "positions"
  | SearchTrades _ _ _ => Some "trades"
  | PlaceOrder _ _ _ _ _ _ _ _ _ _ | CancelOrder _ _ | ModifyOrder _ _ _ _ _ _
  | ClosePosition _ _ | PartialClosePosition _ _ _ => None
  end.

(** The declared payload of an operation, taken from an envelope. *)
Definition declared_payload (op : operation) (data : dict) : pyval :=
  match payload_field op with
  | Some f => match lookup f data with Some v => v | None => PList [] end
  | None => PDict data
  end.

(** The return statement of an operation. *)
Definition returns (op : operation) : pyval -> M pyval :=
  match payload_field op with
  | Some f => TopStepXClient.field_or_empty f
  | None => ret
  end.

(** The JSON body an operation sends. *)
Definition request_body (op : operation) : dict :=
  match op with
  | GetActiveAccounts => [("onlyActiveAccounts", PBool true)]
  | GetAvailableContracts live => [("live", PBool live)]
  | PlaceOrder a c t s n lp sp tp tag lk =>
      TopStepXClient.order_data a c t s n lp sp tp tag lk
  | SearchOrders a s e | SearchTrades a s e => TopStepXClient.search_payload a s e
  | GetOpenOrders a | GetOpenPositions a => [("accountId", PInt a)]
  | CancelOrder a o => [("accountId", PInt a); ("orderId", PInt o)]
  | ModifyOrder a o n lp sp tp => TopStepXClient.modify_payload a o n lp sp tp
  | ClosePosition a c => [("accountId", PInt a); ("contractId", PStr c)]
  | PartialClosePosition a c n =>
      [("accountId", PInt a); ("contractId", PStr c); ("size", PInt n)]
  end.

(** [envelope.k], [PNone] when the key is absent. *)
Definition field (k : string) (data : dict) : pyval :=
  match lookup k data with Some v => v | None => PNone end.

(** "success == true && errorCode == 0". *)
Definition envelope_ok (data : dict) : bool :=
  eq_True (field "success" data) && eq_int (field "errorCode" data) 0.

(** The test the code applies to a body that is an object: [success] is
    true in Python's sense and [errorCode == 0]. *)
Definition accepted (data : dict) : bool :=
  truthy (field "success" data) && eq_int (field "errorCode" data) 0.

(** "message = errorMessage or "Unknown error" when errorMessage is absent". *)
Definition error_message (data : dict) : pyval :=
  match lookup "errorMessage" data with
  | Some v => v
  | None => PStr "Unknown error"
  end.

(** The envelope of section 3 types [success] as a boolean. *)
Definition success_is_bool (data : dict) : Prop :=
  match lookup "success" data with
  | Some (PBool _) | None => True
  | Some _ => False
  end.

(** A response with a success status whose body decodes to the object
    [data], arriving after [dt] microseconds. *)
Definition replies (dt : Z) (status : Z) (data : pyval) : exchange :=
  {| elapsed := dt;
     answer := Some {| status_code := status; body := Some data |} |}.

Section WithRuntime.
Context {rt : Runtime}.

(** The method of [TopStepXClient] behind each operation. *)
Definition run (op : operation) : M pyval :=
  match op with
  | GetActiveAccounts => TopStepXClient.get_active_accounts
  | GetAvailableContracts live => TopStepXClient.get_available_contracts live
  | PlaceOrder a c t s n lp sp tp tag lk =>
      TopStepXClient.place_order a c t s n lp sp tp tag lk
  | SearchOrders a s e => TopStepXClient.search_orders a s e
  | GetOpenOrders a => TopStepXClient.get_open_orders a
  | CancelOrder a o => TopStepXClient.cancel_order a o
  | ModifyOrder a o n lp sp tp => TopStepXClient.modify_order a o n lp sp tp
  | GetOpenPositions a => TopStepXClient.get_open_positions a
  | ClosePosition a c => TopStepXClient.close_position a c
  | PartialClosePosition a c n => TopStepXClient.partial_close_position a c n
  | SearchTrades a s e => TopStepXClient.search_trades a s e
  end.

(** The request an operation sends once a token has been obtained: its
    JSON body, under the header of the session [a]. *)
Definition sent_request (op : operation) (body : dict) (a : auth_obj) : request :=
  {| url := TopStepXClient.BASE_URL ++ path op;
     json := Some (PDict body);
     headers := Some [("Authorization", PStr ("Bearer " ++ str (token a)))] |}.

(** The public surface of a session and its client. *)
Inductive call : Type :=
| GetValidToken
| Login
| GetHeaders
| IsTokenExpired
| ValidateToken
| Operation (op : operation).

(** The world a call leaves behind, whether it returned or raised. *)
Definition after (c : call) (w : world) : world :=
  match c with
  | GetValidToken => final (TopStepXAuth.get_valid_token w)
  | Login => final (TopStepXAuth._login w)
  | GetHeaders => final (TopStepXAuth.get_headers w)
  | IsTokenExpired => final (TopStepXAuth._is_token_expired w)
  | ValidateToken => final (TopStepXAuth.validate_token w)
  | Operation op => final (run op w)
  end.

(** The most requests a call can send: a login and, for an operation, its
    own request. *)
Definition exchanges_allowed (c : call) : nat :=
  match c with
  | GetHeaders | IsTokenExpired => 0
  | GetValidToken | Login | ValidateToken => 1
  | Operation _ => 2
  end.

(** Time passing between two calls. *)
Definition wait (d : Z) (w : world) : world :=
  {| auth := auth w; now := now w + d; inbox := inbox w; outbox := outbox w |}.

(** A freshly constructed session at time [t], facing the replies [ib]. *)
Definition constructed (u k : string) (t : datetime) (ib : list exchange) : world :=
  {| auth := TopStepXAuth.init u k; now := t; inbox := ib; outbox := [] |}.

(** The worlds the public surface can reach from [w0]. *)
Inductive reachable (w0 : world) : world -> Prop :=
| reach_start : reachable w0 w0
| reach_call (c : call) (w : world) :
    reachable w0 w -> reachable w0 (after c w)
| reach_wait (d : Z) (w : world) :
    reachable w0 w -> reachable w0 (wait d w).

End WithRuntime.

(** The world after a login stored [tok]: token and expiry are replaced
    together, the expiry being the current time plus the validity window. *)
Definition logged_in (tok : pyval) (w : world) : world :=
  {| auth := {| username := username (auth w);
                api_key := api_key (auth w);
                token := tok;
                token_expires :=
                  Some (now w + timedelta_hours TopStepXAuth.TOKEN_VALIDITY_HOURS) |};
     now := now w; inbox := inbox w; outbox := outbox w |}.

(** The current time is strictly before the expiry minus the refresh
    margin. *)
Definition before_margin (t : datetime) (expires : option datetime) : Prop :=
  exists e, expires = Some e /\
    t < e - timedelta_minutes TopStepXAuth.TOKEN_REFRESH_MARGIN_MINUTES.

(** The condition of [get_valid_token] for logging in (line 40). *)
Definition stale (w : world) : bool :=
  negb (truthy (token (auth w)))
  || match token_expires (auth w) with
     | None => true
     | Some e =>
         e - timedelta_minutes TopStepXAuth.TOKEN_REFRESH_MARGIN_MINUTES <=? now w
     end.

(** The exchange [x] is a successful login carrying [tok]: a response of
    success status whose body is an object that passes the test of the
    envelope and holds [tok] under [token]. *)
Definition delivers (x : exchange) (tok : pyval) : Prop :=
  exists r d,
    answer x = Some r /\ is_success r = true /\ body r = Some (PDict d) /\
    accepted d = true /\ lookup "token" d = Some tok.

(** The two ways [_login] can end in a world [w]: the reply was a
    successful login and it stored the [token] field of the body, or it
    raised and left the session object alone.  Either way it sent one
    request. *)
Inductive login_result (w : world) : outcome unit -> Prop :=
| login_stored (x : exchange) (rest : list exchange) (tok : pyval) :
    inbox w = x :: rest -> delivers x tok ->
    login_result w
      (Ok tt (logged_in tok (exchanged (TopStepXAuth.login_request (auth w)) x rest w)))
| login_raised (e : exn) (w' : world) :
    auth w' = auth w -> inbox w' = tl (inbox w) ->
    outbox w' = (outbox w ++ [TopStepXAuth.login_request (auth w)])%list ->
    login_result w (Raise e w').

(** How a call may change the session: the replies still pending are a
    suffix of those pending before, and the session object is either
    untouched or holds, together with an expiry, the [token] field of a
    successful login among the replies that were pending. *)
Definition session_step (w w' : world) : Prop :=
  (exists used, inbox w = (used ++ inbox w')%list) /\
  (auth w' = auth w \/
   exists x tok t,
     In x (inbox w) /\ delivers x tok /\
     token (auth w') = tok /\ token_expires (auth w') = Some t).


(** A request that carries a bearer header. *)
Definition authorized (rq : request) : Prop :=
  exists v, headers rq = Some [("Authorization", PStr ("Bearer " ++ v))].

(** What a session constructed with [u] and [k] may put on the wire: the
    login request with those credentials, or a request with a bearer
    header. *)
Definition well_formed_request (u k : string) (rq : request) : Prop :=
  rq = TopStepXAuth.login_request (TopStepXAuth.init u k) \/ authorized rq.

(** The interval during which a token is reused: the validity window less
    the refresh margin. *)
Definition reuse_window : timedelta :=
  timedelta_hours TopStepXAuth.TOKEN_VALIDITY_HOURS
  - timedelta_minutes TopStepXAuth.TOKEN_REFRESH_MARGIN_MINUTES.


(** A runtime for closed examples; no statement depends on its choices. *)
Definition sample_runtime : Runtime :=
  {| float_repr := fun _ => "nan"; str_repr := fun s => "'" ++ s ++ "'" |}.

End Spec.

(** ** Concrete sessions and replies *)

Module Examples.

Import Spec.

(** The mocked login bodies of section 8, and one that reports success
    with a [null] token. *)
Definition login_abc : exchange :=
  replies 0 200 (PDict [("success", PBool true); ("errorCode", PInt 0);
                        ("token", PStr "abc")]).

Definition login_bad_key : exchange :=
  replies 0 200 (PDict [("success", PBool false); ("errorCode", PInt 7);
                        ("errorMessage", PStr "bad key")]).


(** A successful login whose token is the empty string. *)
Definition login_empty_token : exchange :=
  replies 0 200 (PDict [("success", PBool true); ("errorCode", PInt 0);
                        ("token", PStr "")]).

(** A body with neither [success] nor [errorCode], but with a payload. *)
Definition bare_accounts : exchange :=
  replies 0 200 (PDict [("accounts", PList [PDict [("id", PInt 1)]])]).

(** The mocked order-place failure of section 8. *)
Definition insufficient_margin : exchange :=
  replies 0 200 (PDict [("success", PBool false); ("errorCode", PInt 3);
                        ("errorMessage", PStr "insufficient margin")]).

(** A success envelope under status 500, and a body that is a list. *)
Definition success_under_500 : exchange :=
  replies 0 500 (PDict [("success", PBool true); ("errorCode", PInt 0);
                        ("token", PStr "abc"); ("accounts", PList [])]).

Definition list_body : exchange := replies 0 200 (PList [PInt 1; PInt 2]).

(** An envelope whose [success] is a string and whose [errorCode] is the
    float zero. *)
Definition loosely_typed : exchange :=
  replies 0 200 (PDict [("success", PStr "yes");
                        ("errorCode", PFloat (S754_zero false));
                        ("accounts", PList [PStr "A1"])]).

(** [TopStepXAuth("test_user", "test_key")] at time [0], facing [ib]. *)
Definition fresh (ib : list exchange) : world :=
  constructed "test_user" "test_key" 0 ib.

(** A session holding [tok], due to expire [d] microseconds from now. *)
Definition holding (tok : pyval) (d : Z) (ib : list exchange) : world :=
  {| auth := {| username := "test_user"; api_key := "test_key";
                token := tok; token_expires := Some d |};
     now := 0; inbox := ib; outbox := [] |}.

Definition noon : Datetime.t :=
  {| Datetime.year := 2025; Datetime.month := 6; Datetime.day := 1;
     Datetime.hour := 12; Datetime.minute := 0; Datetime.second := 0;
     Datetime.microsecond := 0 |}.

Definition half_past : Datetime.t :=
  {| Datetime.year := 2025; Datetime.month := 6; Datetime.day := 1;
     Datetime.hour := 12; Datetime.minute := 30; Datetime.second := 5;
     Datetime.microsecond := 250 |}.

End Examples.

Import Spec Examples.

(** * Properties *)

(** ** Python values *)

Lemma eq_True_truthy (v : pyval) : eq_True v = true -> truthy v = true.
Proof.
  unfold eq_True; destruct v as [ | b | z | f | s | l | d ]; simpl; try discriminate.
  - now destruct b.
  - intros H; apply Z.eqb_eq in H; now subst.
  - destruct f; simpl; auto; discriminate.
Qed.

Lemma truthy_bool_field (data : dict) :
  success_is_bool data ->
  truthy (field "success" data) = eq_True (field "success" data).
Proof.
  unfold success_is_bool, field.
  destruct (lookup "success" data) as [ [ | b | | | | | ] | ]; simpl; try tauto.
  now destruct b.
Qed.

(** ** The monad *)

Lemma bind_Ok {A B : Type} (c : M A) (k : A -> M B) (w w' : world) (a : A) :
  c w = Ok a w' -> bind c k w = k a w'.
Proof. unfold bind; now intros ->. Qed.

Lemma bind_Raise {A B : Type} (c : M A) (k : A -> M B) (w w' : world) (e : exn) :
  c w = Raise e w' -> bind c k w = Raise e w'.
Proof. unfold bind; now intros ->. Qed.

Lemma envelope_succeeded_dict (data : dict) (w : world) :
  envelope_succeeded (PDict data) w = Ok (accepted data) w.
Proof.
  unfold envelope_succeeded, accepted, field, bind, get, ret.
  destruct (truthy _); reflexivity.
Qed.

Lemma accepted_envelope_ok (data : dict) :
  success_is_bool data -> accepted data = envelope_ok data.
Proof.
  intros H; unfold accepted, envelope_ok; now rewrite truthy_bool_field.
Qed.

Lemma envelope_ok_accepted (data : dict) :
  envelope_ok data = true -> accepted data = true.
Proof.
  unfold accepted, envelope_ok; intros H.
  apply andb_true_iff in H as [H1 H2].
  now rewrite (eq_True_truthy _ H1), H2.
Qed.

Lemma post_reply (rq : request) (w : world) (x : exchange)
    (rest : list exchange) (r : response) :
  inbox w = x :: rest -> answer x = Some r ->
  post rq w = Ok r (exchanged rq x rest w).
Proof. unfold post; now intros -> ->. Qed.

(** ** [TopStepXAuth] *)

Lemma is_token_expired_eq (w : world) :
  TopStepXAuth._is_token_expired w =
  Ok (match token_expires (auth w) with
      | None => true
      | Some e =>
          e - timedelta_minutes TopStepXAuth.TOKEN_REFRESH_MARGIN_MINUTES <=? now w
      end) w.
Proof.
  unfold TopStepXAuth._is_token_expired, bind, self, datetime_now, ret.
  now destruct (token_expires (auth w)).
Qed.

(** What [_login] does with a response of success status whose body is an
    object. *)
Lemma login_on_reply (w : world) (x : exchange) (rest : list exchange)
    (r : response) (data : dict) :
  inbox w = x :: rest -> answer x = Some r ->
  is_success r = true -> body r = Some (PDict data) ->
  TopStepXAuth._login w =
  let w1 := exchanged (TopStepXAuth.login_request (auth w)) x rest w in
  if accepted data then
    match lookup "token" data with
    | Some tok => Ok tt (logged_in tok w1)
    | None => Raise (KeyError "token") w1
    end
  else Raise (AuthenticationError (error_message data) (field "errorCode" data)) w1.
Proof.
  intros Hin Hans Hst Hbody.
  unfold TopStepXAuth._login.
  unfold bind at 1; unfold self at 1.
  rewrite (bind_Ok _ _ _ _ _ (post_reply _ _ _ _ _ Hin Hans)).
  unfold raise_for_status; rewrite Hst.
  unfold bind at 1; unfold ret at 1.
  unfold response_json; rewrite Hbody.
  unfold bind at 1; unfold ret at 1.
  rewrite (bind_Ok _ _ _ _ _ (envelope_succeeded_dict _ _)).
  cbv zeta.
  destruct (accepted data).
  - unfold subscript, bind, raise, ret.
    destruct (lookup "token" data); reflexivity.
  - reflexivity.
Qed.

(** C3 (as the code has it).  [_is_token_expired] returns without touching
    the world, and the token counts as valid ([False] is returned) exactly
    when an expiry is recorded and the current time is strictly before that
    expiry minus the five-minute margin; the token itself is not looked at.
    It is expired for a session that never logged in and for an expiry three
    minutes ahead, and valid for an expiry ten minutes ahead. *)
Theorem is_token_expired_spec :
  (forall w : world,
     exists expired : bool,
       TopStepXAuth._is_token_expired w = Ok expired w /\
       (expired = false <-> before_margin (now w) (token_expires (auth w)))) /\
  (forall u k t ib,
     TopStepXAuth._is_token_expired (constructed u k t ib)
     = Ok true (constructed u k t ib)) /\
  (forall w : world,
     token_expires (auth w) = Some (now w + timedelta_minutes 3) ->
     TopStepXAuth._is_token_expired w = Ok true w) /\
  (forall w : world,
     token_expires (auth w) = Some (now w + timedelta_minutes 10) ->
     TopStepXAuth._is_token_expired w = Ok false w).
Proof.
  split; [ | split; [ | split ] ].
  - intros w; rewrite is_token_expired_eq.
    eexists; split; [reflexivity | ].
    unfold before_margin.
    destruct (token_expires (auth w)) as [e | ].
    + rewrite Z.leb_gt. split.
      * intros H; exists e; now split.
      * intros (e' & He & Hlt); now inversion He; subst.
    + split; [discriminate | ]. intros (e' & He & _); discriminate.
  - intros u k t ib; now rewrite is_token_expired_eq.
  - intros w H; rewrite is_token_expired_eq, H.
    f_equal. apply Z.leb_le.
    unfold timedelta_minutes, TopStepXAuth.TOKEN_REFRESH_MARGIN_MINUTES. lia.
  - intros w H; rewrite is_token_expired_eq, H.
    f_equal. apply Z.leb_gt.
    unfold timedelta_minutes, TopStepXAuth.TOKEN_REFRESH_MARGIN_MINUTES. lia.
Qed.

(** C3, as stated, fails: with an expiry one hour ahead and no token, the
    predicate reports a valid token although none exists. *)
Lemma is_token_expired_ignores_token :
  TopStepXAuth._is_token_expired (holding PNone (timedelta_hours 1) [])
  = Ok false (holding PNone (timedelta_hours 1) []) /\
  token (auth (holding PNone (timedelta_hours 1) [])) = PNone.
Proof. split; reflexivity. Qed.

(** C5.  When the login response has a success status and its body is an
    envelope with [success == true], [errorCode == 0] and a [token] field,
    [_login] returns, the token of the session is that field, and the expiry
    is the time of the assignment plus twenty-four hours; nothing the server
    sent enters the expiry. *)
Theorem login_sets_token_and_expiry (w : world) (x : exchange)
    (rest : list exchange) (r : response) (data : dict) (tok : pyval) :
  inbox w = x :: rest -> answer x = Some r ->
  is_success r = true -> body r = Some (PDict data) ->
  envelope_ok data = true ->
  lookup "token" data = Some tok ->
  exists w' : world,
    TopStepXAuth._login w = Ok tt w' /\
    token (auth w') = tok /\
    token_expires (auth w') = Some (now w' + timedelta_hours 24) /\
    now w' = now w + elapsed x.
Proof.
  intros Hin Hans Hst Hbody Hok Htok.
  rewrite (login_on_reply w x rest r data Hin Hans Hst Hbody).
  cbv zeta. rewrite (envelope_ok_accepted data Hok), Htok.
  eexists; split; [reflexivity | ]. simpl; auto.
Qed.

Lemma login_sets_token_and_expiry_witness :
  exists w' : world,
    TopStepXAuth._login (fresh [login_abc]) = Ok tt w' /\
    token (auth w') = PStr "abc" /\
    token_expires (auth w') = Some (now w' + timedelta_hours 24) /\
    now w' = now (fresh [login_abc]) + elapsed login_abc.
Proof.
  apply (login_sets_token_and_expiry (fresh [login_abc]) login_abc []
           {| status_code := 200;
              body := Some (PDict [("success", PBool true); ("errorCode", PInt 0);
                                   ("token", PStr "abc")]) |}
           [("success", PBool true); ("errorCode", PInt 0); ("token", PStr "abc")]
           (PStr "abc")); reflexivity.
Defined.

(** A success envelope without the [token] key: [data["token"]] raises
    [KeyError] before anything is assigned. *)
Lemma login_without_token_field (w : world) (x : exchange)
    (rest : list exchange) (r : response) (data : dict) :
  inbox w = x :: rest -> answer x = Some r ->
  is_success r = true -> body r = Some (PDict data) ->
  accepted data = true -> lookup "token" data = None ->
  exists w' : world,
    TopStepXAuth._login w = Raise (KeyError "token") w' /\ auth w' = auth w.
Proof.
  intros Hin Hans Hst Hbody Hok Htok.
  rewrite (login_on_reply w x rest r data Hin Hans Hst Hbody).
  cbv zeta. rewrite Hok, Htok. eexists; split; reflexivity.
Qed.

(** The integer codes of [models.py]. *)
Example wire_codes :
  map Models.OrderType_int
    [Models.LIMIT; Models.MARKET; Models.STOP; Models.TRAILING_STOP;
     Models.JOIN_BID; Models.JOIN_ASK] = [1; 2; 4; 5; 6; 7] /\
  map Models.OrderSide_int [Models.BUY; Models.SELL] = [0; 1] /\
  map Models.OrderStatus_int
    [Models.PENDING; Models.FILLED; Models.CANCELLED; Models.REJECTED]
  = [1; 2; 3; 4] /\
  map Models.PositionType_int [Models.LONG; Models.SHORT] = [0; 1].
Proof. repeat split. Qed.

(** C2.  When the login response has a success status and its body is an
    envelope (a boolean [success], if any) with [success != true] or
    [errorCode != 0], [_login] raises [AuthenticationError] with the
    envelope's [errorMessage] (["Unknown error"] when the key is absent) and
    its [errorCode], and the session object is what it was before the call. *)
Theorem login_failure_leaves_session (w : world) (x : exchange)
    (rest : list exchange) (r : response) (data : dict) :
  inbox w = x :: rest -> answer x = Some r ->
  is_success r = true -> body r = Some (PDict data) ->
  success_is_bool data ->
  envelope_ok data = false ->
  exists w' : world,
    TopStepXAuth._login w
    = Raise (AuthenticationError (error_message data) (field "errorCode" data)) w' /\
    auth w' = auth w.
Proof.
  intros Hin Hans Hst Hbody Hty Hok.
  rewrite (login_on_reply w x rest r data Hin Hans Hst Hbody).
  cbv zeta. rewrite (accepted_envelope_ok data Hty), Hok.
  eexists; split; reflexivity.
Qed.

Lemma login_failure_leaves_session_witness :
  exists w' : world,
    TopStepXAuth._login (fresh [login_bad_key])
    = Raise (AuthenticationError (PStr "bad key") (PInt 7)) w' /\
    auth w' = auth (fresh [login_bad_key]).
Proof.
  apply (login_failure_leaves_session (fresh [login_bad_key]) login_bad_key []
           {| status_code := 200;
              body := Some (PDict [("success", PBool false); ("errorCode", PInt 7);
                                   ("errorMessage", PStr "bad key")]) |}
           [("success", PBool false); ("errorCode", PInt 7);
            ("errorMessage", PStr "bad key")]);
    solve [reflexivity | exact I].
Defined.

Lemma login_cases (w : world) : login_result w (TopStepXAuth._login w).
Proof.
  destruct (inbox w) as [ | x rest ] eqn:Hin.
  { unfold TopStepXAuth._login, bind, self, post. rewrite Hin.
    apply login_raised; simpl; auto. now rewrite Hin. }
  destruct (answer x) as [ r | ] eqn:Hans.
  2:{ unfold TopStepXAuth._login, bind, self, post. rewrite Hin, Hans.
      apply login_raised; simpl; auto. now rewrite Hin. }
  assert (Hfail : forall e,
             login_result w
               (Raise e (exchanged (TopStepXAuth.login_request (auth w)) x rest w))).
  { intros e; apply login_raised; simpl; auto. now rewrite Hin. }
  destruct (is_success r) eqn:Hst.
  2:{ unfold TopStepXAuth._login, bind, self, post, raise_for_status.
      rewrite Hin, Hans, Hst. apply Hfail. }
  destruct (body r) as [ data | ] eqn:Hbody.
  2:{ unfold TopStepXAuth._login, bind, self, post, raise_for_status, response_json.
      rewrite Hin, Hans, Hst, Hbody. apply Hfail. }
  destruct data as [ | b | z | f | s | l | d ];
    try (unfold TopStepXAuth._login, bind, self, post, raise_for_status,
           response_json, envelope_succeeded, get;
         rewrite Hin, Hans, Hst, Hbody; apply Hfail).
  rewrite (login_on_reply w x rest r d Hin Hans Hst Hbody). cbv zeta.
  destruct (accepted d) eqn:Hacc; [ | apply Hfail ].
  destruct (lookup "token" d) as [ tok | ] eqn:Htok; [ | apply Hfail ].
  apply (login_stored w x rest tok Hin).
  exists r, d. auto.
Qed.

Lemma get_valid_token_eq (w : world) :
  TopStepXAuth.get_valid_token w =
  if stale w then
    match TopStepXAuth._login w with
    | Ok _ w' => Ok (token (auth w')) w'
    | Raise e w' => Raise e w'
    end
  else Ok (token (auth w)) w.
Proof.
  unfold TopStepXAuth.get_valid_token, stale.
  unfold bind at 1; unfold self at 1.
  destruct (truthy (token (auth w))); simpl.
  - unfold bind at 1. rewrite is_token_expired_eq.
    destruct (token_expires (auth w)) as [ e | ].
    + destruct (_ <=? _).
      * unfold bind. destruct (TopStepXAuth._login w); reflexivity.
      * reflexivity.
    + unfold bind. destruct (TopStepXAuth._login w); reflexivity.
  - unfold bind, ret. destruct (TopStepXAuth._login w); reflexivity.
Qed.

Lemma before_margin_fresh (w : world) :
  truthy (token (auth w)) = true ->
  before_margin (now w) (token_expires (auth w)) ->
  stale w = false.
Proof.
  intros Ht (e & He & Hlt). unfold stale. rewrite Ht, He. simpl.
  now apply Z.leb_gt.
Qed.

(** C4 (as the code has it).  A session whose token is true in Python's
    sense (present and not empty) and valid gets its token from
    [get_valid_token] with the world as it was: no request is sent and the
    session object is unchanged.  Hence, when a first call has to log in and
    is answered by a successful login whose token is true in that sense, it
    returns that token, the call right after it returns the same token
    without any exchange, and the two calls together have sent exactly the
    one login request. *)
Theorem get_valid_token_fresh :
  (forall w : world,
     truthy (token (auth w)) = true ->
     before_margin (now w) (token_expires (auth w)) ->
     TopStepXAuth.get_valid_token w = Ok (token (auth w)) w) /\
  (forall (w : world) (x : exchange) (rest : list exchange) (r : response)
          (data : dict) (tok : pyval),
     stale w = true ->
     inbox w = x :: rest -> answer x = Some r ->
     is_success r = true -> body r = Some (PDict data) ->
     envelope_ok data = true ->
     lookup "token" data = Some tok ->
     truthy tok = true ->
     exists w1 : world,
       TopStepXAuth.get_valid_token w = Ok tok w1 /\
       TopStepXAuth.get_valid_token w1 = Ok tok w1 /\
       outbox w1 = (outbox w ++ [TopStepXAuth.login_request (auth w)])%list).
Proof.
  split.
  - intros w Ht Hv. rewrite get_valid_token_eq.
    now rewrite (before_margin_fresh w Ht Hv).
  - intros w x rest r data tok Hstale Hin Hans Hst Hbody Hok Hlk Htok.
    exists (logged_in tok (exchanged (TopStepXAuth.login_request (auth w)) x rest w)).
    assert (Hfirst : TopStepXAuth.get_valid_token w
                     = Ok tok (logged_in tok
                                 (exchanged (TopStepXAuth.login_request (auth w))
                                    x rest w))).
    { rewrite get_valid_token_eq, Hstale.
      rewrite (login_on_reply w x rest r data Hin Hans Hst Hbody). cbv zeta.
      now rewrite (envelope_ok_accepted data Hok), Hlk. }
    split; [ exact Hfirst | ].
    split; [ | reflexivity ].
    rewrite get_valid_token_eq.
    assert (Hfresh : stale (logged_in tok
              (exchanged (TopStepXAuth.login_request (auth w)) x rest w)) = false).
    { apply before_margin_fresh; [ exact Htok | ].
      eexists; split; [ reflexivity | ].
      simpl. unfold timedelta_hours, timedelta_minutes,
        TopStepXAuth.TOKEN_VALIDITY_HOURS, TopStepXAuth.TOKEN_REFRESH_MARGIN_MINUTES.
      lia. }
    now rewrite Hfresh.
Qed.

Lemma get_valid_token_fresh_witness :
  TopStepXAuth.get_valid_token (holding (PStr "abc") (timedelta_minutes 10) [])
  = Ok (PStr "abc") (holding (PStr "abc") (timedelta_minutes 10) []) /\
  (exists w1 : world,
     TopStepXAuth.get_valid_token (fresh [login_abc]) = Ok (PStr "abc") w1 /\
     TopStepXAuth.get_valid_token w1 = Ok (PStr "abc") w1 /\
     outbox w1
     = (outbox (fresh [login_abc])
        ++ [TopStepXAuth.login_request (auth (fresh [login_abc]))])%list).
Proof.
  split.
  - apply (proj1 get_valid_token_fresh
             (holding (PStr "abc") (timedelta_minutes 10) [])).
    + reflexivity.
    + exists (timedelta_minutes 10); split; reflexivity.
  - exact (proj2 get_valid_token_fresh (fresh [login_abc]) login_abc []
             {| status_code := 200;
                body := Some (PDict [("success", PBool true); ("errorCode", PInt 0);
                                     ("token", PStr "abc")]) |}
             [("success", PBool true); ("errorCode", PInt 0); ("token", PStr "abc")]
             (PStr "abc")
             eq_refl eq_refl eq_refl eq_refl eq_refl eq_refl eq_refl eq_refl).
Defined.

(** C4, as stated, fails: a session whose token is present (the empty
    string, not [None]) and whose expiry is ten minutes ahead is not served
    from the session; [get_valid_token] logs in and replaces the token. *)
Lemma present_empty_token_logs_in :
  token (auth (holding (PStr "") (timedelta_minutes 10) [login_abc])) <> PNone /\
  before_margin (now (holding (PStr "") (timedelta_minutes 10) [login_abc]))
    (token_expires (auth (holding (PStr "") (timedelta_minutes 10) [login_abc]))) /\
  exists w1 : world,
    TopStepXAuth.get_valid_token (holding (PStr "") (timedelta_minutes 10) [login_abc])
    = Ok (PStr "abc") w1 /\
    outbox w1
    = [TopStepXAuth.login_request
         (auth (holding (PStr "") (timedelta_minutes 10) [login_abc]))] /\
    auth w1 <> auth (holding (PStr "") (timedelta_minutes 10) [login_abc]).
Proof.
  split; [ discriminate | ].
  split; [ exists (timedelta_minutes 10); split; reflexivity | ].
  eexists. split; [ reflexivity | ]. split; [ reflexivity | discriminate ].
Qed.

(** After a successful login that delivered the empty token, the second
    call logs in again: two calls, two login requests. *)
Example empty_token_login_repeats :
  exists w1 w2 : world,
    TopStepXAuth.get_valid_token (fresh [login_empty_token; login_abc])
    = Ok (PStr "") w1 /\
    TopStepXAuth.get_valid_token w1 = Ok (PStr "abc") w2 /\
    List.length (outbox w2) = 2%nat.
Proof. do 2 eexists; repeat split. Qed.

(** The end-to-end run of section 8: the first call logs in and returns
    ["abc"], the second returns it again, and one request has been sent. *)
Example get_valid_token_twice :
  exists w1 : world,
    TopStepXAuth.get_valid_token (fresh [login_abc]) = Ok (PStr "abc") w1 /\
    TopStepXAuth.get_valid_token w1 = Ok (PStr "abc") w1 /\
    List.length (outbox w1) = 1%nat.
Proof. eexists; repeat split. Qed.

(** ** The request protocol and the domain operations *)

Section Protocol.
Context {rt : Runtime}.

Lemma get_headers_eq (w : world) :
  TopStepXAuth.get_headers w
  = Ok [("Authorization", PStr ("Bearer " ++ str (token (auth w))))] w.
Proof. reflexivity. Qed.

(** C6.  [get_headers] returns the one-entry mapping whose [Authorization]
    value is ["Bearer "] followed by the token of the session, and returns
    it in the world it was called in; expiry and clock play no part.  A
    session that never authenticated gets the header of the absent token,
    which the f-string renders as [None]. *)
Theorem get_headers_spec (w : world) :
  (forall s : string,
     token (auth w) = PStr s ->
     TopStepXAuth.get_headers w
     = Ok [("Authorization", PStr ("Bearer " ++ s))] w) /\
  (token (auth w) = PStr "my_token" ->
     TopStepXAuth.get_headers w
     = Ok [("Authorization", PStr "Bearer my_token")] w) /\
  (token (auth w) = PNone ->
     TopStepXAuth.get_headers w
     = Ok [("Authorization", PStr "Bearer None")] w) /\
  (forall w' : world,
     token (auth w') = token (auth w) ->
     exists h : dict,
       TopStepXAuth.get_headers w = Ok h w /\
       TopStepXAuth.get_headers w' = Ok h w').
Proof.
  repeat split.
  - intros s H; now rewrite get_headers_eq, H.
  - intros H; now rewrite get_headers_eq, H.
  - intros H; now rewrite get_headers_eq, H.
  - intros w' H; eexists; split; rewrite get_headers_eq; [ | rewrite H ]; reflexivity.
Qed.

(** What the shared block does with a response of success status whose
    body is an object. *)
Lemma exchange_json_on_reply (p : string) (payload : dict)
    (error : pyval -> pyval -> exn) (result : pyval -> M pyval)
    (w : world) (x : exchange) (rest : list exchange) (r : response)
    (data : dict) :
  inbox w = x :: rest -> answer x = Some r ->
  is_success r = true -> body r = Some (PDict data) ->
  TopStepXClient.exchange_json p payload error result w =
  let w1 :=
    exchanged {| url := TopStepXClient.BASE_URL ++ p;
                 json := Some (PDict payload);
                 headers :=
                   Some [("Authorization", PStr ("Bearer " ++ str (token (auth w))))] |}
      x rest w in
  if accepted data then result (PDict data) w1
  else Raise (error (error_message data) (field "errorCode" data)) w1.
Proof.
  intros Hin Hans Hst Hbody.
  unfold TopStepXClient.exchange_json.
  rewrite (bind_Ok _ _ _ _ _ (get_headers_eq w)).
  rewrite (bind_Ok _ _ _ _ _ (post_reply _ _ _ _ _ Hin Hans)).
  unfold raise_for_status; rewrite Hst.
  unfold bind at 1; unfold ret at 1.
  unfold response_json; rewrite Hbody.
  unfold bind at 1; unfold ret at 1.
  rewrite (bind_Ok _ _ _ _ _ (envelope_succeeded_dict _ _)).
  cbv zeta.
  destruct (accepted data); reflexivity.
Qed.

Lemma run_eq (op : operation) :
  run op =
  (TopStepXAuth.get_valid_token ;;
   TopStepXClient.exchange_json (path op) (request_body op) (error_kind op)
     (returns op)).
Proof. destruct op; reflexivity. Qed.

Lemma returns_dict (op : operation) (data : dict) (w : world) :
  returns op (PDict data) w = Ok (declared_payload op data) w.
Proof.
  unfold returns, declared_payload.
  destruct (payload_field op); reflexivity.
Qed.

(** An operation whose token step returned in [w1], answered there by a
    response of success status with an object for a body. *)
Lemma run_on_reply (op : operation) (w w1 : world) (tok : pyval)
    (x : exchange) (rest : list exchange) (r : response) (data : dict) :
  TopStepXAuth.get_valid_token w = Ok tok w1 ->
  inbox w1 = x :: rest -> answer x = Some r ->
  is_success r = true -> body r = Some (PDict data) ->
  run op w =
  let w2 := exchanged (sent_request op (request_body op) (auth w1)) x rest w1 in
  if accepted data then Ok (declared_payload op data) w2
  else Raise (error_kind op (error_message data) (field "errorCode" data)) w2.
Proof.
  intros Htok Hin Hans Hst Hbody.
  rewrite run_eq, (bind_Ok _ _ _ _ _ Htok).
  rewrite (exchange_json_on_reply _ _ _ _ w1 x rest r data Hin Hans Hst Hbody).
  cbv zeta. destruct (accepted data); [ apply returns_dict | reflexivity ].
Qed.

(** C1.  Take any operation whose token step has returned and whose request
    is answered by a response of success status carrying an envelope (a
    boolean [success], if any).  If [success == true] and [errorCode == 0]
    the operation returns its declared payload; in every other case it
    raises its error kind with the envelope's [errorMessage] (["Unknown
    error"] when the key is absent) and the envelope's [errorCode].  Since
    returning and raising exclude each other, the payload is returned if
    and only if the envelope is a success. *)
Theorem operation_outcome (op : operation) (w w1 : world) (tok : pyval)
    (x : exchange) (rest : list exchange) (r : response) (data : dict) :
  TopStepXAuth.get_valid_token w = Ok tok w1 ->
  inbox w1 = x :: rest -> answer x = Some r ->
  is_success r = true -> body r = Some (PDict data) ->
  success_is_bool data ->
  run op w =
  let w2 := exchanged (sent_request op (request_body op) (auth w1)) x rest w1 in
  if envelope_ok data then Ok (declared_payload op data) w2
  else Raise (error_kind op (error_message data) (field "errorCode" data)) w2.
Proof.
  intros Htok Hin Hans Hst Hbody Hty.
  rewrite (run_on_reply op w w1 tok x rest r data Htok Hin Hans Hst Hbody).
  now rewrite (accepted_envelope_ok data Hty).
Qed.

Lemma absent_key_rejected (data : dict) :
  lookup "success" data = None \/ lookup "errorCode" data = None ->
  accepted data = false.
Proof.
  unfold accepted, field. intros [ -> | -> ]; simpl; [ reflexivity | ].
  apply andb_false_r.
Qed.

(** C10.  A body that is an object without the [success] key, or without
    the [errorCode] key, is a failure whatever else it contains: [_login]
    raises [AuthenticationError] and every operation raises its error kind;
    the message is ["Unknown error"] when [errorMessage] is absent too, and
    the error code is what [data.get("errorCode")] gives, [None] for the
    absent key. *)
Theorem absent_keys_are_failures (w : world) (x : exchange)
    (rest : list exchange) (r : response) (data : dict) :
  inbox w = x :: rest -> answer x = Some r ->
  is_success r = true -> body r = Some (PDict data) ->
  lookup "success" data = None \/ lookup "errorCode" data = None ->
  let message := match lookup "errorMessage" data with
                 | Some m => m
                 | None => PStr "Unknown error"
                 end in
  let error_code := match lookup "errorCode" data with
                    | Some c => c
                    | None => PNone
                    end in
  (exists w' : world,
     TopStepXAuth._login w = Raise (AuthenticationError message error_code) w') /\
  (forall (op : operation) (w0 : world) (tok : pyval),
     TopStepXAuth.get_valid_token w0 = Ok tok w ->
     exists w' : world,
       run op w0 = Raise (error_kind op message error_code) w').
Proof.
  intros Hin Hans Hst Hbody Habs message error_code.
  pose proof (absent_key_rejected data Habs) as Hrej.
  split.
  - rewrite (login_on_reply w x rest r data Hin Hans Hst Hbody).
    cbv zeta. rewrite Hrej. eexists; reflexivity.
  - intros op w0 tok Htok.
    rewrite (run_on_reply op w0 w tok x rest r data Htok Hin Hans Hst Hbody).
    cbv zeta. rewrite Hrej. eexists; reflexivity.
Qed.

End Protocol.

(** ** Timestamps *)

Lemma is_digit_digit (n : Z) : 0 <= n <= 9 -> Datetime.is_digit (Datetime.digit n) = true.
Proof.
  intros H. unfold Datetime.digit.
  assert (Hk : (Z.to_nat n <= 9)%nat) by lia.
  revert Hk. generalize (Z.to_nat n) as k. intros k Hk.
  do 10 (destruct k as [ | k ]; [ reflexivity | ]). lia.
Qed.

Lemma is_digit_mod (z : Z) : Datetime.is_digit (Datetime.digit (z mod 10)) = true.
Proof. apply is_digit_digit. pose proof (Z.mod_pos_bound z 10); lia. Qed.

Lemma fmt0d_in_range (w : nat) (z : Z) :
  0 <= z < 10 ^ Z.of_nat w -> Datetime.fmt0d w z = Datetime.fixed_digits w z.
Proof.
  intros [H0 H1]. unfold Datetime.fmt0d.
  destruct (Z.ltb_spec z 0); [ lia | ].
  destruct (Z.ltb_spec z (10 ^ Z.of_nat w)); [ reflexivity | lia ].
Qed.

Lemma fixed_digits_2 (z : Z) :
  Datetime.fixed_digits 2 z
  = String (Datetime.digit (z / 10 mod 10)) (String (Datetime.digit (z mod 10)) "").
Proof. reflexivity. Qed.

Lemma fixed_digits_4 (z : Z) :
  Datetime.fixed_digits 4 z
  = String (Datetime.digit (z / 10 / 10 / 10 mod 10))
      (String (Datetime.digit (z / 10 / 10 mod 10))
         (String (Datetime.digit (z / 10 mod 10))
            (String (Datetime.digit (z mod 10)) ""))).
Proof. reflexivity. Qed.

Lemma all_digits_app (s1 s2 : string) :
  Datetime.all_digits (s1 ++ s2)
  = Datetime.all_digits s1 && Datetime.all_digits s2.
Proof.
  induction s1 as [ | c s1 IH ]; cbn [append Datetime.all_digits andb];
    [ reflexivity | ].
  now rewrite IH, andb_assoc.
Qed.

Lemma fixed_digits_all_digits (w : nat) :
  forall z, Datetime.all_digits (Datetime.fixed_digits w z) = true.
Proof.
  induction w as [ | w IH ]; intros z; [ reflexivity | ].
  cbn [Datetime.fixed_digits]. rewrite all_digits_app, IH.
  cbn [Datetime.all_digits andb].
  now rewrite is_digit_mod.
Qed.

(** On the fields of a [datetime], [isoformat] writes ISO 8601. *)
Lemma isoformat_iso8601 (d : Datetime.t) :
  Datetime.valid d -> Datetime.is_iso8601 (Datetime.isoformat d) = true.
Proof.
  intros (Hy & Hm & Hd & Hh & Hn & Hs & Hu).
  unfold Datetime.isoformat.
  rewrite (fmt0d_in_range 4 (Datetime.year d)) by (change (10 ^ Z.of_nat 4) with 10000; lia).
  rewrite (fmt0d_in_range 2 (Datetime.month d)) by (change (10 ^ Z.of_nat 2) with 100; lia).
  rewrite (fmt0d_in_range 2 (Datetime.day d)) by (change (10 ^ Z.of_nat 2) with 100; lia).
  rewrite (fmt0d_in_range 2 (Datetime.hour d)) by (change (10 ^ Z.of_nat 2) with 100; lia).
  rewrite (fmt0d_in_range 2 (Datetime.minute d)) by (change (10 ^ Z.of_nat 2) with 100; lia).
  rewrite (fmt0d_in_range 2 (Datetime.second d)) by (change (10 ^ Z.of_nat 2) with 100; lia).
  rewrite fixed_digits_4, !fixed_digits_2.
  cbn [append Datetime.is_iso8601 forallb].
  rewrite !is_digit_mod. cbn [andb].
  destruct (Datetime.microsecond d =? 0); [ reflexivity | ].
  rewrite (fmt0d_in_range 6 (Datetime.microsecond d))
    by (change (10 ^ Z.of_nat 6) with 1000000; lia).
  change (Datetime.fixed_digits 6 (Datetime.microsecond d))
    with (Datetime.fixed_digits 5 (Datetime.microsecond d / 10)
          ++ String (Datetime.digit (Datetime.microsecond d mod 10)) "").
  pose proof (fixed_digits_all_digits 6 (Datetime.microsecond d)) as H6.
  cbn [Datetime.fixed_digits] in H6.
  cbn [Datetime.fixed_digits append Datetime.is_fraction].
  cbn [append Datetime.all_digits] in H6 |- *.
  exact H6.
Qed.

(** ** Requests on the wire, and the session invariant *)

Section Session.
Context {rt : Runtime}.

(** The shared block sends exactly one request, whatever comes back, and
    never touches the session object. *)
Lemma exchange_json_sends (p : string) (payload : dict)
    (error : pyval -> pyval -> exn) (result : pyval -> M pyval) (w : world) :
  (forall v w', final (result v w') = w') ->
  let rq := {| url := TopStepXClient.BASE_URL ++ p;
               json := Some (PDict payload);
               headers :=
                 Some [("Authorization", PStr ("Bearer " ++ str (token (auth w))))] |} in
  let w' := final (TopStepXClient.exchange_json p payload error result w) in
  auth w' = auth w /\ inbox w' = tl (inbox w) /\
  outbox w' = (outbox w ++ [rq])%list.
Proof.
  intros Hres rq.
  destruct (inbox w) as [ | x rest ] eqn:Hin.
  { unfold TopStepXClient.exchange_json, bind, TopStepXAuth.get_headers, self,
      ret, post. simpl. rewrite Hin. simpl. auto. }
  assert (Hx : forall w2, w2 = exchanged rq x rest w ->
             auth w2 = auth w /\ inbox w2 = rest /\
             outbox w2 = (outbox w ++ [rq])%list).
  { intros w2 ->; simpl; auto. }
  destruct (answer x) as [ r | ] eqn:Hans.
  2:{ unfold TopStepXClient.exchange_json, bind, TopStepXAuth.get_headers, self,
        ret, post. simpl. rewrite Hin, Hans. now apply Hx. }
  destruct (is_success r) eqn:Hst.
  2:{ unfold TopStepXClient.exchange_json, bind, TopStepXAuth.get_headers, self,
        ret, post, raise_for_status. simpl. rewrite Hin, Hans, Hst. now apply Hx. }
  destruct (body r) as [ data | ] eqn:Hbody.
  2:{ unfold TopStepXClient.exchange_json, bind, TopStepXAuth.get_headers, self,
        ret, post, raise_for_status, response_json.
      simpl. rewrite Hin, Hans, Hst, Hbody. now apply Hx. }
  destruct data as [ | b | z | f | s | l | d ];
    try (unfold TopStepXClient.exchange_json, bind, TopStepXAuth.get_headers, self,
           ret, post, raise_for_status, response_json, envelope_succeeded, get;
         simpl; rewrite Hin, Hans, Hst, Hbody; now apply Hx).
  rewrite (exchange_json_on_reply p payload error result w x rest r d
             Hin Hans Hst Hbody).
  cbv zeta. destruct (accepted d); [ rewrite Hres | ]; now apply Hx.
Qed.

Lemma returns_pure (op : operation) (v : pyval) (w : world) :
  final (returns op v w) = w.
Proof.
  unfold returns, TopStepXClient.field_or_empty, get, ret, raise.
  destruct (payload_field op); [ destruct v | ]; reflexivity.
Qed.

(** Once the token step has returned, an operation sends its request. *)
Lemma run_sends (op : operation) (w w1 : world) (tok : pyval) :
  TopStepXAuth.get_valid_token w = Ok tok w1 ->
  let w' := final (run op w) in
  auth w' = auth w1 /\ inbox w' = tl (inbox w1) /\
  outbox w' = (outbox w1 ++ [sent_request op (request_body op) (auth w1)])%list.
Proof.
  intros Htok. rewrite run_eq, (bind_Ok _ _ _ _ _ Htok).
  apply (exchange_json_sends (path op) (request_body op) (error_kind op)
           (returns op) w1 (returns_pure op)).
Qed.

(** C8.  The body [search_orders] and [search_trades] send holds
    [startTimestamp] as the ISO 8601 text of the start timestamp; it holds
    [endTimestamp], again as ISO 8601 text, when the caller gave an end
    timestamp, and has no such key (not a [null]) when the caller gave none.
    That body is the JSON of the request the call sends once its token step
    has returned. *)
Theorem search_timestamps (op : operation) (account_id : Z)
    (start_timestamp : Datetime.t) (end_timestamp : option Datetime.t) :
  op = SearchOrders account_id start_timestamp end_timestamp \/
  op = SearchTrades account_id start_timestamp end_timestamp ->
  Datetime.valid start_timestamp ->
  (forall e, end_timestamp = Some e -> Datetime.valid e) ->
  (forall (w w1 : world) (tok : pyval),
     TopStepXAuth.get_valid_token w = Ok tok w1 ->
     outbox (final (run op w))
     = (outbox w1 ++ [sent_request op (request_body op) (auth w1)])%list) /\
  lookup "startTimestamp" (request_body op)
  = Some (PStr (Datetime.isoformat start_timestamp)) /\
  Datetime.is_iso8601 (Datetime.isoformat start_timestamp) = true /\
  match end_timestamp with
  | Some e =>
      lookup "endTimestamp" (request_body op) = Some (PStr (Datetime.isoformat e)) /\
      Datetime.is_iso8601 (Datetime.isoformat e) = true
  | None => has_key "endTimestamp" (request_body op) = false
  end.
Proof.
  intros Hop Hs He.
  split.
  { intros w w1 tok Htok. apply (run_sends op w w1 tok Htok). }
  assert (Hbody : request_body op
                  = TopStepXClient.search_payload account_id start_timestamp
                      end_timestamp)
    by (destruct Hop as [ -> | -> ]; reflexivity).
  rewrite Hbody. unfold TopStepXClient.search_payload.
  destruct end_timestamp as [ e | ].
  - repeat split; try reflexivity.
    + now apply isoformat_iso8601.
    + apply isoformat_iso8601. now apply He.
  - repeat split; try reflexivity. now apply isoformat_iso8601.
Qed.

(** C9.  The body [modify_order] sends always has the six keys
    [accountId], [orderId], [size], [limitPrice], [stopPrice] and
    [trailPrice], in that order and no other; an optional field the caller
    left out is there with the value [None], which is sent as [null].  That
    body is the JSON of the request the call sends once its token step has
    returned. *)
Theorem modify_order_payload (account_id order_id : Z) (size : option Z)
    (limit_price stop_price trail_price : option spec_float) :
  let op := ModifyOrder account_id order_id size limit_price stop_price trail_price in
  let payload := request_body op in
  map fst payload
  = ["accountId"; "orderId"; "size"; "limitPrice"; "stopPrice"; "trailPrice"] /\
  lookup "accountId" payload = Some (PInt account_id) /\
  lookup "orderId" payload = Some (PInt order_id) /\
  lookup "size" payload
  = Some (match size with Some n => PInt n | None => PNone end) /\
  lookup "limitPrice" payload
  = Some (match limit_price with Some p => PFloat p | None => PNone end) /\
  lookup "stopPrice" payload
  = Some (match stop_price with Some p => PFloat p | None => PNone end) /\
  lookup "trailPrice" payload
  = Some (match trail_price with Some p => PFloat p | None => PNone end) /\
  (forall (w w1 : world) (tok : pyval),
     TopStepXAuth.get_valid_token w = Ok tok w1 ->
     outbox (final (run op w))
     = (outbox w1 ++ [sent_request op payload (auth w1)])%list).
Proof.
  intros op payload.
  repeat split; try reflexivity.
  intros w w1 tok Htok. apply (run_sends op w w1 tok Htok).
Qed.

Lemma session_step_refl (w : world) : session_step w w.
Proof. split; [ now exists [] | now left ]. Qed.

(** A step that keeps the session object and drops at most the first
    pending reply. *)
Lemma session_step_keep (w w' : world) :
  auth w' = auth w -> inbox w' = inbox w \/ inbox w' = tl (inbox w) ->
  session_step w w'.
Proof.
  intros Ha Hi. split; [ | now left ].
  destruct Hi as [ -> | -> ]; [ now exists [] | ].
  destruct (inbox w) as [ | x rest ]; [ now exists [] | now exists [x] ].
Qed.

Lemma session_step_then (w w1 w2 : world) :
  session_step w w1 -> auth w2 = auth w1 -> inbox w2 = tl (inbox w1) ->
  session_step w w2.
Proof.
  intros [(used & Hused) Hauth] Ha Hi. split.
  - rewrite Hi, Hused.
    destruct (inbox w1) as [ | x rest ]; [ now exists used | ].
    exists (used ++ [x])%list. now rewrite <- app_assoc.
  - rewrite Ha. destruct Hauth as [ -> | H ]; [ now left | right; exact H ].
Qed.

Lemma login_step (w : world) : session_step w (final (TopStepXAuth._login w)).
Proof.
  destruct (login_cases w) as [ x rest tok Hin Hdel | e w' Ha Hi _ ].
  - split; simpl.
    + exists [x]. now rewrite Hin.
    + right. exists x, tok. eexists.
      rewrite Hin. repeat split; [ now left | exact Hdel ].
  - simpl. apply session_step_keep; auto.
Qed.

Lemma get_valid_token_step (w : world) :
  session_step w (final (TopStepXAuth.get_valid_token w)).
Proof.
  rewrite get_valid_token_eq. destruct (stale w); [ | apply session_step_refl ].
  pose proof (login_step w) as H.
  destruct (TopStepXAuth._login w); exact H.
Qed.

Lemma validate_token_step (w : world) :
  session_step w (final (TopStepXAuth.validate_token w)).
Proof.
  unfold TopStepXAuth.validate_token, bind, self, TopStepXAuth.get_headers, ret, post.
  destruct (negb (truthy (token (auth w)))); [ apply session_step_refl | ].
  simpl. destruct (inbox w) as [ | x rest ] eqn:Hin.
  - apply session_step_keep; simpl; auto.
  - destruct (answer x); apply session_step_keep; simpl; auto; right; now rewrite Hin.
Qed.

Lemma run_step (op : operation) (w : world) : session_step w (final (run op w)).
Proof.
  pose proof (get_valid_token_step w) as Hstep.
  destruct (TopStepXAuth.get_valid_token w) as [ tok w1 | e w1 ] eqn:Htok.
  - destruct (run_sends op w w1 tok Htok) as (Ha & Hi & _).
    exact (session_step_then w w1 _ Hstep Ha Hi).
  - rewrite run_eq, (bind_Raise _ _ _ _ _ Htok). exact Hstep.
Qed.

(** Every call of the public surface is a [session_step]. *)
Lemma after_step (c : call) (w : world) : session_step w (after c w).
Proof.
  destruct c; simpl.
  - apply get_valid_token_step.
  - apply login_step.
  - apply session_step_refl.
  - rewrite is_token_expired_eq. apply session_step_refl.
  - apply validate_token_step.
  - apply run_step.
Qed.




End Session.



(** The order-place run of section 8: [OrderError] with the message and the
    code of the envelope. *)
Lemma operation_outcome_witness :
  exists w2 : world,
    @run sample_runtime
      (PlaceOrder 1 "CON.F.US.EP.M25" Models.MARKET Models.BUY 1
         None None None None None)
      (holding (PStr "abc") (timedelta_minutes 10) [insufficient_margin])
    = Raise (OrderError (PStr "insufficient margin") (PInt 3)) w2.
Proof.
  eexists.
  exact (@operation_outcome sample_runtime
           (PlaceOrder 1 "CON.F.US.EP.M25" Models.MARKET Models.BUY 1
              None None None None None)
           (holding (PStr "abc") (timedelta_minutes 10) [insufficient_margin])
           (holding (PStr "abc") (timedelta_minutes 10) [insufficient_margin])
           (PStr "abc") insufficient_margin []
           {| status_code := 200;
              body := Some (PDict [("success", PBool false); ("errorCode", PInt 3);
                                   ("errorMessage", PStr "insufficient margin")]) |}
           [("success", PBool false); ("errorCode", PInt 3);
            ("errorMessage", PStr "insufficient margin")]
           eq_refl eq_refl eq_refl eq_refl eq_refl I).
Defined.

(** A body with the payload but neither [success] nor [errorCode]. *)
Lemma absent_keys_are_failures_witness :
  (exists w' : world,
     TopStepXAuth._login (holding (PStr "abc") (timedelta_minutes 10) [bare_accounts])
     = Raise (AuthenticationError (PStr "Unknown error") PNone) w') /\
  (exists w' : world,
     @run sample_runtime GetActiveAccounts
       (holding (PStr "abc") (timedelta_minutes 10) [bare_accounts])
     = Raise (APIError (PStr "Unknown error") PNone) w').
Proof.
  pose proof (@absent_keys_are_failures sample_runtime
                (holding (PStr "abc") (timedelta_minutes 10) [bare_accounts])
                bare_accounts []
                {| status_code := 200;
                   body := Some (PDict [("accounts", PList [PDict [("id", PInt 1)]])]) |}
                [("accounts", PList [PDict [("id", PInt 1)]])]
                eq_refl eq_refl eq_refl eq_refl (or_introl eq_refl)) as T.
  exact (conj (proj1 T)
           (proj2 T GetActiveAccounts
              (holding (PStr "abc") (timedelta_minutes 10) [bare_accounts])
              (PStr "abc") eq_refl)).
Defined.

(** The same body answering [get_active_accounts] in a session whose token
    is valid: [APIError], although [accounts] is there. *)
Example bare_accounts_rejected :
  exists w' : world,
    @TopStepXClient.get_active_accounts sample_runtime
      (holding (PStr "abc") (timedelta_minutes 10) [bare_accounts])
    = Raise (APIError (PStr "Unknown error") PNone) w'.
Proof. eexists; reflexivity. Qed.

Lemma search_timestamps_witness :
  (forall (w w1 : world) (tok : pyval),
     TopStepXAuth.get_valid_token w = Ok tok w1 ->
     outbox (final (@run sample_runtime (SearchOrders 7 noon (Some half_past)) w))
     = (outbox w1
        ++ [@sent_request sample_runtime (SearchOrders 7 noon (Some half_past))
              (request_body (SearchOrders 7 noon (Some half_past))) (auth w1)])%list) /\
  lookup "startTimestamp" (request_body (SearchOrders 7 noon (Some half_past)))
  = Some (PStr "2025-06-01T12:00:00") /\
  Datetime.is_iso8601 "2025-06-01T12:00:00" = true /\
  lookup "endTimestamp" (request_body (SearchOrders 7 noon (Some half_past)))
  = Some (PStr "2025-06-01T12:30:05.000250") /\
  Datetime.is_iso8601 "2025-06-01T12:30:05.000250" = true.
Proof.
  apply (@search_timestamps sample_runtime (SearchOrders 7 noon (Some half_past))
           7 noon (Some half_past)).
  - left; reflexivity.
  - unfold Datetime.valid; simpl; lia.
  - intros e He; injection He as <-. unfold Datetime.valid; simpl; lia.
Defined.

(** Without an end timestamp the key is not in the body. *)
Example search_trades_open_ended :
  request_body (SearchTrades 7 noon None)
  = [("accountId", PInt 7); ("startTimestamp", PStr "2025-06-01T12:00:00")].
Proof. reflexivity. Qed.

(** The header of the test suite. *)
Example get_headers_my_token :
  @TopStepXAuth.get_headers sample_runtime (holding (PStr "my_token") 0 [])
  = Ok [("Authorization", PStr "Bearer my_token")] (holding (PStr "my_token") 0 []).
Proof. reflexivity. Qed.

(** * Further properties of the session manager *)

Lemma login_final (w : world) :
  let w' := final (TopStepXAuth._login w) in
  outbox w' = (outbox w ++ [TopStepXAuth.login_request (auth w)])%list /\
  inbox w' = tl (inbox w) /\
  username (auth w') = username (auth w) /\
  api_key (auth w') = api_key (auth w).
Proof.
  destruct (login_cases w) as [ x rest tok Hin Hdel | e w' Ha Hi Ho ];
    simpl.
  - rewrite Hin. auto.
  - rewrite Ha. auto.
Qed.

Lemma get_valid_token_final (w : world) :
  final (TopStepXAuth.get_valid_token w)
  = if stale w then final (TopStepXAuth._login w) else w.
Proof.
  rewrite get_valid_token_eq.
  destruct (stale w); [ | reflexivity ].
  destruct (TopStepXAuth._login w); reflexivity.
Qed.

(** X1.  However [_login] fails (no response, an error status, a body that
    is not JSON or not an object, a missing [token], an envelope that reports
    failure), the session object is the one before the call, one request has
    been sent and one pending reply, if any, has been used. *)
Theorem login_raise_keeps_session (w w' : world) (e : exn) :
  TopStepXAuth._login w = Raise e w' ->
  auth w' = auth w /\
  outbox w' = (outbox w ++ [TopStepXAuth.login_request (auth w)])%list /\
  inbox w' = tl (inbox w).
Proof.
  intros H. pose proof (login_cases w) as Hc. rewrite H in Hc.
  inversion Hc; subst; auto.
Qed.

Lemma login_raise_keeps_session_witness :
  auth (final (TopStepXAuth._login (holding (PStr "old") 5 [login_bad_key])))
  = auth (holding (PStr "old") 5 [login_bad_key]) /\
  outbox (final (TopStepXAuth._login (holding (PStr "old") 5 [login_bad_key])))
  = [TopStepXAuth.login_request (auth (holding (PStr "old") 5 [login_bad_key]))] /\
  inbox (final (TopStepXAuth._login (holding (PStr "old") 5 [login_bad_key]))) = [].
Proof.
  exact (login_raise_keeps_session (holding (PStr "old") 5 [login_bad_key])
           _ (AuthenticationError (PStr "bad key") (PInt 7)) eq_refl).
Defined.

(** X2.  When [get_valid_token] returns, what it returns is the token the
    session now holds, and the session is not expired: [_is_token_expired]
    answers [False] in the world the call ends in. *)
Theorem get_valid_token_post (w w' : world) (tok : pyval) :
  TopStepXAuth.get_valid_token w = Ok tok w' ->
  tok = token (auth w') /\
  TopStepXAuth._is_token_expired w' = Ok false w'.
Proof.
  intros H. rewrite get_valid_token_eq in H.
  rewrite is_token_expired_eq.
  destruct (stale w) eqn:Hstale.
  - destruct (login_cases w) as [ x rest tok' Hin Hdel | e w1 _ _ _ ];
      [ | discriminate ].
    simpl in H. injection H as <- <-. split; [ reflexivity | ].
    simpl. f_equal. apply Z.leb_gt.
    unfold timedelta_hours, timedelta_minutes,
      TopStepXAuth.TOKEN_VALIDITY_HOURS, TopStepXAuth.TOKEN_REFRESH_MARGIN_MINUTES.
    lia.
  - injection H as <- <-. split; [ reflexivity | ].
    unfold stale in Hstale. apply orb_false_iff in Hstale as [_ He].
    destruct (token_expires (auth w)); [ now rewrite He | discriminate ].
Qed.

Lemma get_valid_token_post_witness :
  exists w' : world,
    TopStepXAuth.get_valid_token (fresh [login_abc]) = Ok (PStr "abc") w' /\
    PStr "abc" = token (auth w') /\
    TopStepXAuth._is_token_expired w' = Ok false w'.
Proof.
  eexists. split; [ reflexivity | ].
  exact (get_valid_token_post (fresh [login_abc]) _ (PStr "abc") eq_refl).
Defined.

(** X3.  A call of [get_valid_token] on a session whose token is absent,
    false or within the margin of its expiry sends exactly one login request
    and uses one pending reply, whether the login then succeeds or not; on
    any other session it sends nothing and changes nothing. *)
Theorem get_valid_token_exchanges (w : world) :
  (stale w = true ->
   outbox (final (TopStepXAuth.get_valid_token w))
   = (outbox w ++ [TopStepXAuth.login_request (auth w)])%list /\
   inbox (final (TopStepXAuth.get_valid_token w)) = tl (inbox w)) /\
  (stale w = false ->
   final (TopStepXAuth.get_valid_token w) = w).
Proof.
  rewrite get_valid_token_final. split; intros ->; [ | reflexivity ].
  destruct (login_final w) as (Ho & Hi & _). auto.
Qed.

(** X4.  A token that is true in Python's sense is reused for exactly the
    validity window less the margin (23 h 55 min): a call made less than
    that after the login stored it returns it without any exchange, and a
    call made at or after that moment logs in again. *)
Theorem token_reuse_window (w : world) (tok : pyval) (d : Z) :
  truthy tok = true ->
  (d < reuse_window ->
   TopStepXAuth.get_valid_token (wait d (logged_in tok w))
   = Ok tok (wait d (logged_in tok w))) /\
  (reuse_window <= d ->
   outbox (final (TopStepXAuth.get_valid_token (wait d (logged_in tok w))))
   = (outbox w
      ++ [TopStepXAuth.login_request (auth (logged_in tok w))])%list).
Proof.
  intros Htok.
  assert (Hstale : stale (wait d (logged_in tok w)) = (reuse_window <=? d)).
  { unfold stale, reuse_window. simpl. rewrite Htok. simpl.
    unfold timedelta_hours, timedelta_minutes,
      TopStepXAuth.TOKEN_VALIDITY_HOURS, TopStepXAuth.TOKEN_REFRESH_MARGIN_MINUTES.
    destruct (Z.leb_spec (now w + 24 * 3600 * 1000000 - 5 * 60 * 1000000) (now w + d));
      symmetry; [ apply Z.leb_le | apply Z.leb_gt ]; lia. }
  split; intros Hd.
  - rewrite get_valid_token_eq, Hstale.
    apply Z.leb_gt in Hd. now rewrite Hd.
  - rewrite get_valid_token_final, Hstale.
    apply Z.leb_le in Hd. rewrite Hd.
    destruct (login_final (wait d (logged_in tok w))) as (Ho & _). exact Ho.
Qed.

Lemma token_reuse_window_witness :
  (timedelta_hours 23 < reuse_window ->
   TopStepXAuth.get_valid_token
     (wait (timedelta_hours 23) (logged_in (PStr "abc") (fresh [login_abc])))
   = Ok (PStr "abc")
       (wait (timedelta_hours 23) (logged_in (PStr "abc") (fresh [login_abc])))) /\
  (reuse_window <= timedelta_hours 23 ->
   outbox (final (TopStepXAuth.get_valid_token
                    (wait (timedelta_hours 23)
                       (logged_in (PStr "abc") (fresh [login_abc])))))
   = (outbox (fresh [login_abc])
      ++ [TopStepXAuth.login_request
            (auth (logged_in (PStr "abc") (fresh [login_abc])))])%list).
Proof.
  exact (token_reuse_window (fresh [login_abc]) (PStr "abc") (timedelta_hours 23)
           eq_refl).
Defined.

(** X5.  A login that stores a token false in Python's sense ([None], the
    empty string, zero) is never reused: the next [get_valid_token] logs in
    again, however far away the expiry is. *)
Theorem false_token_logs_in_again (w : world) :
  truthy (token (auth w)) = false ->
  outbox (final (TopStepXAuth.get_valid_token w))
  = (outbox w ++ [TopStepXAuth.login_request (auth w)])%list.
Proof.
  intros Htok. rewrite get_valid_token_final.
  unfold stale. rewrite Htok. simpl.
  destruct (login_final w) as (Ho & _). exact Ho.
Qed.

Lemma false_token_logs_in_again_witness :
  outbox (final (TopStepXAuth.get_valid_token
                   (holding (PStr "") (timedelta_hours 24) [login_abc])))
  = [TopStepXAuth.login_request
       (auth (holding (PStr "") (timedelta_hours 24) [login_abc]))].
Proof.
  exact (false_token_logs_in_again
           (holding (PStr "") (timedelta_hours 24) [login_abc]) eq_refl).
Defined.

(** X6.  Expiry is monotone in time: a session that [_is_token_expired]
    reports as expired is still reported expired after any non-negative
    delay; only a login makes it valid again. *)
Theorem expired_stays_expired (w : world) (d : Z) :
  0 <= d ->
  TopStepXAuth._is_token_expired w = Ok true w ->
  TopStepXAuth._is_token_expired (wait d w) = Ok true (wait d w).
Proof.
  intros Hd H. rewrite is_token_expired_eq in *. simpl.
  destruct (token_expires (auth w)) as [ e | ]; [ | reflexivity ].
  injection H as H. f_equal. apply Z.leb_le in H. apply Z.leb_le. lia.
Qed.

Lemma expired_stays_expired_witness :
  TopStepXAuth._is_token_expired
    (wait 1000000 (holding (PStr "abc") (timedelta_minutes 3) []))
  = Ok true (wait 1000000 (holding (PStr "abc") (timedelta_minutes 3) [])).
Proof.
  apply (expired_stays_expired (holding (PStr "abc") (timedelta_minutes 3) [])
           1000000); [ lia | reflexivity ].
Defined.

(** * Further properties of the request protocol *)

Section Wire.
Context {rt : Runtime}.

Lemma exchange_json_on_status (p : string) (payload : dict)
    (error : pyval -> pyval -> exn) (result : pyval -> M pyval)
    (w : world) (x : exchange) (rest : list exchange) (r : response) :
  inbox w = x :: rest -> answer x = Some r -> is_success r = false ->
  TopStepXClient.exchange_json p payload error result w
  = Raise (HTTPStatusError (status_code r))
      (exchanged {| url := TopStepXClient.BASE_URL ++ p;
                    json := Some (PDict payload);
                    headers :=
                      Some [("Authorization",
                             PStr ("Bearer " ++ str (token (auth w))))] |}
         x rest w).
Proof.
  intros Hin Hans Hst.
  unfold TopStepXClient.exchange_json.
  rewrite (bind_Ok _ _ _ _ _ (get_headers_eq w)).
  rewrite (bind_Ok _ _ _ _ _ (post_reply _ _ _ _ _ Hin Hans)).
  unfold raise_for_status; rewrite Hst. reflexivity.
Qed.

Lemma exchange_json_on_other (p : string) (payload : dict)
    (error : pyval -> pyval -> exn) (result : pyval -> M pyval)
    (w : world) (x : exchange) (rest : list exchange) (r : response)
    (v : pyval) :
  inbox w = x :: rest -> answer x = Some r -> is_success r = true ->
  body r = Some v -> (forall d, v <> PDict d) ->
  TopStepXClient.exchange_json p payload error result w
  = Raise (AttributeError "get")
      (exchanged {| url := TopStepXClient.BASE_URL ++ p;
                    json := Some (PDict payload);
                    headers :=
                      Some [("Authorization",
                             PStr ("Bearer " ++ str (token (auth w))))] |}
         x rest w).
Proof.
  intros Hin Hans Hst Hbody Hv.
  unfold TopStepXClient.exchange_json.
  rewrite (bind_Ok _ _ _ _ _ (get_headers_eq w)).
  rewrite (bind_Ok _ _ _ _ _ (post_reply _ _ _ _ _ Hin Hans)).
  unfold raise_for_status; rewrite Hst.
  unfold bind at 1; unfold ret at 1.
  unfold response_json; rewrite Hbody.
  unfold bind at 1; unfold ret at 1.
  destruct v; try reflexivity. now elim (Hv d).
Qed.

(** X7.  An operation whose token step raises ends with that very
    exception, in the world the token step ended in: the caller sees the
    [AuthenticationError] or the transport failure of the login, not the
    error kind of the operation, and the operation's own request is never
    sent. *)
Theorem operation_stops_with_token_step (op : operation) (w w1 : world)
    (e : exn) :
  TopStepXAuth.get_valid_token w = Raise e w1 ->
  run op w = Raise e w1 /\
  outbox w1 = (outbox w ++ [TopStepXAuth.login_request (auth w)])%list.
Proof.
  intros H. split.
  - now rewrite run_eq, (bind_Raise _ _ _ _ _ H).
  - pose proof (get_valid_token_final w) as Hf. rewrite H in Hf. simpl in Hf.
    rewrite get_valid_token_eq in H.
    destruct (stale w); [ | discriminate ].
    rewrite Hf. destruct (login_final w) as (Ho & _). exact Ho.
Qed.

(** X8.  The request an operation sends goes to the endpoint of the
    operation under [BASE_URL] and carries, as its bearer, the very token
    its token step returned. *)
Theorem operation_sends_returned_token (op : operation) (w w1 : world)
    (t : string) :
  TopStepXAuth.get_valid_token w = Ok (PStr t) w1 ->
  exists rq : request,
    outbox (final (run op w)) = (outbox w1 ++ [rq])%list /\
    url rq = "https://api.topstepx.com" ++ path op /\
    json rq = Some (PDict (request_body op)) /\
    headers rq = Some [("Authorization", PStr ("Bearer " ++ t))].
Proof.
  intros H.
  destruct (run_sends op w w1 (PStr t) H) as (_ & _ & Ho).
  eexists; split; [ exact Ho | ].
  repeat split. simpl.
  rewrite get_valid_token_eq in H.
  destruct (stale w).
  - destruct (TopStepXAuth._login w); [ | discriminate ].
    injection H as H1 H2. now rewrite <- H2, H1.
  - injection H as H1 H2. now rewrite <- H2, H1.
Qed.

(** X9.  The status is looked at before the body: under a status outside
    200 .. 299 an operation raises [HTTPStatusError] and [_login] does too,
    leaving the session as it was, whatever the body says (a success
    envelope included). *)
Theorem status_before_envelope (w : world) (x : exchange)
    (rest : list exchange) (r : response) :
  inbox w = x :: rest -> answer x = Some r -> is_success r = false ->
  (exists w' : world,
     TopStepXAuth._login w = Raise (HTTPStatusError (status_code r)) w' /\
     auth w' = auth w) /\
  (forall (op : operation) (w0 : world) (tok : pyval),
     TopStepXAuth.get_valid_token w0 = Ok tok w ->
     exists w' : world,
       run op w0 = Raise (HTTPStatusError (status_code r)) w').
Proof.
  intros Hin Hans Hst. split.
  - unfold TopStepXAuth._login.
    unfold bind at 1; unfold self at 1.
    rewrite (bind_Ok _ _ _ _ _ (post_reply _ _ _ _ _ Hin Hans)).
    unfold raise_for_status; rewrite Hst.
    eexists; split; reflexivity.
  - intros op w0 tok Htok.
    rewrite run_eq, (bind_Ok _ _ _ _ _ Htok).
    rewrite (exchange_json_on_status _ _ _ _ w x rest r Hin Hans Hst).
    eexists; reflexivity.
Qed.

(** X10.  A JSON body that is not an object (a list, a string, a number,
    [null]) has no [get]: every operation and [_login] raise
    [AttributeError], and [_login] leaves the session as it was. *)
Theorem body_not_an_object (w : world) (x : exchange)
    (rest : list exchange) (r : response) (v : pyval) :
  inbox w = x :: rest -> answer x = Some r -> is_success r = true ->
  body r = Some v -> (forall d, v <> PDict d) ->
  (exists w' : world,
     TopStepXAuth._login w = Raise (AttributeError "get") w' /\
     auth w' = auth w) /\
  (forall (op : operation) (w0 : world) (tok : pyval),
     TopStepXAuth.get_valid_token w0 = Ok tok w ->
     exists w' : world, run op w0 = Raise (AttributeError "get") w').
Proof.
  intros Hin Hans Hst Hbody Hv. split.
  - unfold TopStepXAuth._login.
    unfold bind at 1; unfold self at 1.
    rewrite (bind_Ok _ _ _ _ _ (post_reply _ _ _ _ _ Hin Hans)).
    unfold raise_for_status; rewrite Hst.
    unfold bind at 1; unfold ret at 1.
    unfold response_json; rewrite Hbody.
    unfold bind at 1; unfold ret at 1.
    destruct v; try (eexists; split; reflexivity). now elim (Hv d).
  - intros op w0 tok Htok.
    rewrite run_eq, (bind_Ok _ _ _ _ _ Htok).
    rewrite (exchange_json_on_other _ _ _ _ w x rest r v Hin Hans Hst Hbody Hv).
    eexists; reflexivity.
Qed.

(** X11.  On any object body, typed or not, an operation returns its
    declared payload exactly when [success] is true in Python's sense (any
    non-zero number, non-empty string or container counts) and [errorCode]
    equals zero as Python compares ([0], [0.0] and [False] do); otherwise it
    raises with the [errorMessage] found under the key, [None] or the empty
    string included, the default being used only when the key is absent. *)
Theorem operation_accepts_by_truth (op : operation) (w w1 : world)
    (tok : pyval) (x : exchange) (rest : list exchange) (r : response)
    (data : dict) :
  TopStepXAuth.get_valid_token w = Ok tok w1 ->
  inbox w1 = x :: rest -> answer x = Some r ->
  is_success r = true -> body r = Some (PDict data) ->
  (truthy (field "success" data) = true /\
   eq_int (field "errorCode" data) 0 = true ->
   exists w2, run op w = Ok (declared_payload op data) w2) /\
  (truthy (field "success" data) = false \/
   eq_int (field "errorCode" data) 0 = false ->
   (forall m, lookup "errorMessage" data = Some m ->
      exists w2, run op w = Raise (error_kind op m (field "errorCode" data)) w2) /\
   (lookup "errorMessage" data = None ->
      exists w2,
        run op w
        = Raise (error_kind op (PStr "Unknown error") (field "errorCode" data)) w2)).
Proof.
  intros Htok Hin Hans Hst Hbody.
  rewrite (run_on_reply op w w1 tok x rest r data Htok Hin Hans Hst Hbody).
  cbv zeta. unfold accepted, error_message. split.
  - intros [-> ->]. eexists; reflexivity.
  - intros H.
    assert (Hrej : truthy (field "success" data)
                   && eq_int (field "errorCode" data) 0 = false)
      by (apply andb_false_iff; exact H).
    rewrite Hrej. split.
    + intros m ->. eexists; reflexivity.
    + intros ->. eexists; reflexivity.
Qed.

(** X12.  [validate_token] answers [False] without any exchange when the
    token is absent or false.  Otherwise it sends one bodyless request to
    [/api/Auth/validate] under the bearer header, whatever the expiry, and
    answers whether the status is exactly 200: another 2xx status gives
    [False], and an error status gives [False] rather than an exception.  It
    never changes the session, and the only exception it can end with is the
    transport's. *)
Theorem validate_token_spec (w : world) :
  (truthy (token (auth w)) = false ->
   TopStepXAuth.validate_token w = Ok false w) /\
  (forall (x : exchange) (rest : list exchange) (r : response),
     truthy (token (auth w)) = true ->
     inbox w = x :: rest -> answer x = Some r ->
     TopStepXAuth.validate_token w
     = Ok (status_code r =? 200)
         (exchanged {| url := "https://api.topstepx.com/api/Auth/validate";
                       json := None;
                       headers :=
                         Some [("Authorization",
                                PStr ("Bearer " ++ str (token (auth w))))] |}
            x rest w)) /\
  (forall (e : exn) (w' : world),
     TopStepXAuth.validate_token w = Raise e w' -> e = TransportError) /\
  auth (final (TopStepXAuth.validate_token w)) = auth w.
Proof.
  unfold TopStepXAuth.validate_token, bind, self, TopStepXAuth.get_headers, ret, post.
  destruct (truthy (token (auth w))); simpl.
  - split; [ discriminate | ].
    destruct (inbox w) as [ | x rest ].
    + repeat split; try discriminate.
      intros e w' H; now injection H as <- _.
    + destruct (answer x) as [ r | ] eqn:Hans.
      * repeat split; try discriminate.
        intros x' rest' r' _ H1 H2. injection H1 as <- <-.
        rewrite Hans in H2. now injection H2 as <-.
      * repeat split; try discriminate.
        -- intros x' rest' r' _ H1 H2. injection H1 as <- <-.
           rewrite Hans in H2. discriminate.
        -- intros e w' H; now injection H as <- _.
  - repeat split; try discriminate.
Qed.

(** What one call puts on the wire: at most [exchanges_allowed] requests,
    appended to the outbox, each the login request of the session or a
    request under a bearer header; the credentials stay. *)
Lemma after_sends (c : call) (w : world) :
  exists sent : list request,
    outbox (after c w) = (outbox w ++ sent)%list /\
    (List.length sent <= exchanges_allowed c)%nat /\
    Forall (fun rq => rq = TopStepXAuth.login_request (auth w) \/ authorized rq)
      sent /\
    username (auth (after c w)) = username (auth w) /\
    api_key (auth (after c w)) = api_key (auth w).
Proof.
  assert (Hnone : forall n, exists sent : list request,
            outbox w = (outbox w ++ sent)%list /\ (List.length sent <= n)%nat /\
            Forall (fun rq => rq = TopStepXAuth.login_request (auth w)
                              \/ authorized rq) sent /\
            username (auth w) = username (auth w) /\
            api_key (auth w) = api_key (auth w)).
  { intros n. exists []. rewrite app_nil_r. repeat split; auto. simpl; lia. }
  assert (Hlogin : exists sent : list request,
            outbox (final (TopStepXAuth._login w)) = (outbox w ++ sent)%list /\
            (List.length sent <= 1)%nat /\
            Forall (fun rq => rq = TopStepXAuth.login_request (auth w)
                              \/ authorized rq) sent /\
            username (auth (final (TopStepXAuth._login w))) = username (auth w) /\
            api_key (auth (final (TopStepXAuth._login w))) = api_key (auth w)).
  { destruct (login_final w) as (Ho & _ & Hu & Hk).
    exists [TopStepXAuth.login_request (auth w)]. repeat split; auto. }
  assert (Htoken : exists sent : list request,
            outbox (final (TopStepXAuth.get_valid_token w)) = (outbox w ++ sent)%list /\
            (List.length sent <= 1)%nat /\
            Forall (fun rq => rq = TopStepXAuth.login_request (auth w)
                              \/ authorized rq) sent /\
            username (auth (final (TopStepXAuth.get_valid_token w)))
            = username (auth w) /\
            api_key (auth (final (TopStepXAuth.get_valid_token w)))
            = api_key (auth w)).
  { rewrite get_valid_token_final. destruct (stale w); [ exact Hlogin | apply Hnone ]. }
  destruct c; simpl.
  - exact Htoken.
  - exact Hlogin.
  - apply Hnone.
  - rewrite is_token_expired_eq. apply Hnone.
  - unfold TopStepXAuth.validate_token, bind, self, TopStepXAuth.get_headers,
      ret, post.
    destruct (truthy (token (auth w))); simpl; [ | apply Hnone ].
    destruct (inbox w) as [ | x rest ]; [ | destruct (answer x) ]; simpl;
      (eexists; split; [ reflexivity | ];
       split; [ simpl; lia | ];
       split; [ | split; reflexivity ];
       apply Forall_cons; [ right; eexists; reflexivity | apply Forall_nil ]).
  - destruct Htoken as (sent & Ho & Hlen & Hall & Hu & Hk).
    destruct (TopStepXAuth.get_valid_token w) as [ tok w1 | e w1 ] eqn:Htk;
      simpl in Ho, Hu, Hk.
    + destruct (run_sends op w w1 tok Htk) as (Ha & _ & Ho').
      exists (sent ++ [sent_request op (request_body op) (auth w1)])%list.
      rewrite Ho', Ho, Ha, app_assoc. repeat split; auto.
      * rewrite length_app. simpl. lia.
      * apply Forall_app. split; [ exact Hall | ].
        apply Forall_cons; [ right; eexists; reflexivity | apply Forall_nil ].
    + rewrite run_eq, (bind_Raise _ _ _ _ _ Htk). simpl.
      exists sent. repeat split; auto.
Qed.

(** X13.  In every world reachable from a session constructed with [u] and
    [k], the session still has these credentials, and every request that
    has been sent is either the login request with exactly these
    credentials and no header, or a request under a bearer header: the API
    key goes to the login endpoint only, and no other request leaves
    without an [Authorization] header. *)
Theorem wire_invariant (u k : string) (t : datetime) (ib : list exchange)
    (w : world) :
  reachable (constructed u k t ib) w ->
  username (auth w) = u /\ api_key (auth w) = k /\
  Forall (well_formed_request u k) (outbox w).
Proof.
  induction 1 as [ | c w _ (Hu & Hk & Hall) | d w _ IH ].
  - repeat split. constructor.
  - destruct (after_sends c w) as (sent & Ho & _ & Hsent & Hu' & Hk').
    rewrite Hu', Hk', Ho. repeat split; auto.
    apply Forall_app. split; [ exact Hall | ].
    apply (Forall_impl _ (P := fun rq => rq = TopStepXAuth.login_request (auth w)
                                        \/ authorized rq)); [ | exact Hsent ].
    intros rq [ -> | Hauth ]; [ left | now right ].
    unfold TopStepXAuth.login_request. simpl. now rewrite Hu, Hk.
  - exact IH.
Qed.

(** X14.  No call retries: a call appends to the requests already sent at
    most one login request and, for an operation, its own request; reading
    the header or the expiry sends nothing. *)
Theorem no_retry (c : call) (w : world) :
  exists sent : list request,
    outbox (after c w) = (outbox w ++ sent)%list /\
    (List.length sent <= exchanges_allowed c)%nat /\
    (List.length sent <= 2)%nat.
Proof.
  destruct (after_sends c w) as (sent & Ho & Hlen & _).
  exists sent. repeat split; auto.
  destruct c; simpl in Hlen; lia.
Qed.

End Wire.

(** X15.  The integer codes of [models.py] identify the members: two order
    types, sides, statuses or position types with the same code are the
    same, so [int(order_type)] and [int(side)] in a body lose nothing. *)
Theorem wire_codes_injective :
  (forall a b, Models.OrderType_int a = Models.OrderType_int b -> a = b) /\
  (forall a b, Models.OrderSide_int a = Models.OrderSide_int b -> a = b) /\
  (forall a b, Models.OrderStatus_int a = Models.OrderStatus_int b -> a = b) /\
  (forall a b, Models.PositionType_int a = Models.PositionType_int b -> a = b).
Proof.
  repeat split; intros [] []; simpl; intros H; try reflexivity; discriminate.
Qed.

Lemma operation_stops_with_token_step_witness :
  exists w1 : world,
    @run sample_runtime (GetOpenOrders 7) (fresh [login_bad_key])
    = Raise (AuthenticationError (PStr "bad key") (PInt 7)) w1 /\
    outbox w1
    = (outbox (fresh [login_bad_key])
       ++ [TopStepXAuth.login_request (auth (fresh [login_bad_key]))])%list.
Proof.
  eexists.
  exact (@operation_stops_with_token_step sample_runtime (GetOpenOrders 7)
           (fresh [login_bad_key]) _
           (AuthenticationError (PStr "bad key") (PInt 7)) eq_refl).
Defined.

Lemma operation_sends_returned_token_witness :
  exists rq : request,
    outbox (final (@run sample_runtime (CancelOrder 7 42)
                     (fresh [login_abc; insufficient_margin])))
    = ([TopStepXAuth.login_request (auth (fresh []))] ++ [rq])%list /\
    url rq = "https://api.topstepx.com" ++ path (CancelOrder 7 42) /\
    json rq = Some (PDict (request_body (CancelOrder 7 42))) /\
    headers rq = Some [("Authorization", PStr ("Bearer " ++ "abc"))].
Proof.
  exact (@operation_sends_returned_token sample_runtime (CancelOrder 7 42)
           (fresh [login_abc; insufficient_margin]) _ "abc" eq_refl).
Defined.

Lemma status_before_envelope_witness :
  (exists w' : world,
     TopStepXAuth._login
       (holding (PStr "abc") (timedelta_minutes 10) [success_under_500])
     = Raise (HTTPStatusError 500) w' /\
     auth w' = auth (holding (PStr "abc") (timedelta_minutes 10) [success_under_500])) /\
  (exists w' : world,
     @run sample_runtime GetActiveAccounts
       (holding (PStr "abc") (timedelta_minutes 10) [success_under_500])
     = Raise (HTTPStatusError 500) w').
Proof.
  pose proof (@status_before_envelope sample_runtime
                (holding (PStr "abc") (timedelta_minutes 10) [success_under_500])
                success_under_500 []
                {| status_code := 500;
                   body := Some (PDict [("success", PBool true); ("errorCode", PInt 0);
                                        ("token", PStr "abc");
                                        ("accounts", PList [])]) |}
                eq_refl eq_refl eq_refl) as T.
  exact (conj (proj1 T)
           (proj2 T GetActiveAccounts
              (holding (PStr "abc") (timedelta_minutes 10) [success_under_500])
              (PStr "abc") eq_refl)).
Defined.

Lemma body_not_an_object_witness :
  (exists w' : world,
     TopStepXAuth._login (holding (PStr "abc") (timedelta_minutes 10) [list_body])
     = Raise (AttributeError "get") w' /\
     auth w' = auth (holding (PStr "abc") (timedelta_minutes 10) [list_body])) /\
  (exists w' : world,
     @run sample_runtime (GetOpenOrders 7)
       (holding (PStr "abc") (timedelta_minutes 10) [list_body])
     = Raise (AttributeError "get") w').
Proof.
  assert (Hv : forall d : dict, PList [PInt 1; PInt 2] <> PDict d)
    by (intros d; discriminate).
  pose proof (@body_not_an_object sample_runtime
                (holding (PStr "abc") (timedelta_minutes 10) [list_body])
                list_body []
                {| status_code := 200; body := Some (PList [PInt 1; PInt 2]) |}
                (PList [PInt 1; PInt 2]) eq_refl eq_refl eq_refl eq_refl Hv) as T.
  exact (conj (proj1 T)
           (proj2 T (GetOpenOrders 7)
              (holding (PStr "abc") (timedelta_minutes 10) [list_body])
              (PStr "abc") eq_refl)).
Defined.

Lemma operation_accepts_by_truth_witness :
  exists w2 : world,
    @run sample_runtime GetActiveAccounts
      (holding (PStr "abc") (timedelta_minutes 10) [loosely_typed])
    = Ok (PList [PStr "A1"]) w2.
Proof.
  apply (proj1 (@operation_accepts_by_truth sample_runtime GetActiveAccounts
                  (holding (PStr "abc") (timedelta_minutes 10) [loosely_typed])
                  (holding (PStr "abc") (timedelta_minutes 10) [loosely_typed])
                  (PStr "abc") loosely_typed []
                  {| status_code := 200;
                     body := Some (PDict [("success", PStr "yes");
                                          ("errorCode", PFloat (S754_zero false));
                                          ("accounts", PList [PStr "A1"])]) |}
                  [("success", PStr "yes");
                   ("errorCode", PFloat (S754_zero false));
                   ("accounts", PList [PStr "A1"])]
                  eq_refl eq_refl eq_refl eq_refl eq_refl)).
  split; reflexivity.
Defined.

Lemma wire_invariant_witness :
  let w := @after sample_runtime (Operation (GetOpenPositions 7))
             (fresh [login_abc; insufficient_margin]) in
  username (auth w) = "test_user" /\ api_key (auth w) = "test_key" /\
  Forall (well_formed_request "test_user" "test_key") (outbox w).
Proof.
  apply (@wire_invariant sample_runtime "test_user" "test_key" 0
           [login_abc; insufficient_margin]).
  apply reach_call, reach_start.
Defined.

(** X16.  Nothing clears an expiry: once a session has one, every later
    call leaves it with one (there is no logout), whether the call returns
    or raises. *)
Theorem expiry_never_cleared (rt : Runtime) (c : call) (w : world) :
  token_expires (auth w) <> None ->
  token_expires (auth (after c w)) <> None.
Proof.
  intros H.
  destruct (after_step c w) as [_ [ -> | (x & tok & t & _ & _ & _ & He) ]];
    [ exact H | ].
  rewrite He. discriminate.
Qed.

Lemma expiry_never_cleared_witness :
  token_expires
    (auth (@after sample_runtime (Operation GetActiveAccounts)
             (holding (PStr "abc") 0 [login_bad_key])))
  <> None.
Proof.
  apply (expiry_never_cleared sample_runtime (Operation GetActiveAccounts)
           (holding (PStr "abc") 0 [login_bad_key])).
  discriminate.
Defined.


